(** * File-sharing web app: upload, download and expiry sweep

    A shallow embedding of the three flows of the application:
    - [handleUpload]   (src/components/FileUpload.tsx),
    - [loadFileData] and [handleDownload] (the download page),
    - [sweep]          (the scheduled edge function that purges expired rows),
    over an explicit model of the hosted backend they talk to: the table
    [public.files] and the storage bucket [files].

    Conventions.
    - Instants are [Z], milliseconds since the epoch: [new Date()] is an
      input of each flow, [toISOString] / [new Date(s)] are the identity.
      The local-time fields of a [Date] ([getMinutes], [setMinutes]) are
      computed in the time zone of the browser, an input of the upload.
    - Text is [string], read as its UTF-8 bytes, so [TextEncoder.encode]
      is [list_byte_of_string].
    - Every call to the backend may fail for upstream reasons; each flow
      receives, per call it makes, the upstream error (if any) of that call.
    - The calls a flow issues are recorded, in order, in a trace. *)

From Stdlib Require Import ZArith List String Ascii Bool Lia.
From Stdlib.Strings Require Import Byte.
From stdpp Require Import base gmap strings pretty.
Import ListNotations.
Local Open Scope string_scope.
Local Open Scope Z_scope.
Local Open Scope list_scope.

(* ===================================================================== *)
(** ** SHA-256 ([crypto.subtle.digest('SHA-256', data)])                 *)
(* ===================================================================== *)

Module SHA256.

Definition w32 (x : Z) : Z := x mod 2 ^ 32.
Definition add32 (x y : Z) : Z := w32 (x + y).
Definition rotr (n x : Z) : Z :=
  w32 (Z.lor (Z.shiftr x n) (Z.shiftl x (32 - n))).
Definition not32 (x : Z) : Z := Z.lxor x 4294967295.

Definition Ch (x y z : Z) : Z := Z.lxor (Z.land x y) (Z.land (not32 x) z).
Definition Maj (x y z : Z) : Z :=
  Z.lxor (Z.lxor (Z.land x y) (Z.land x z)) (Z.land y z).
Definition Sigma0 (x : Z) : Z := Z.lxor (Z.lxor (rotr 2 x) (rotr 13 x)) (rotr 22 x).
Definition Sigma1 (x : Z) : Z := Z.lxor (Z.lxor (rotr 6 x) (rotr 11 x)) (rotr 25 x).
Definition sigma0 (x : Z) : Z := Z.lxor (Z.lxor (rotr 7 x) (rotr 18 x)) (Z.shiftr x 3).
Definition sigma1 (x : Z) : Z := Z.lxor (Z.lxor (rotr 17 x) (rotr 19 x)) (Z.shiftr x 10).

(** The round constants are the first 32 bits of the fractional parts of
    the cube roots of the first 64 primes; the initial hash value is made
    of those of the square roots of the first 8 primes. *)
Definition primes : list Z :=
  [ 2; 3; 5; 7; 11; 13; 17; 19; 23; 29; 31; 37; 41; 43; 47; 53;
    59; 61; 67; 71; 73; 79; 83; 89; 97; 101; 103; 107; 109; 113; 127; 131;
    137; 139; 149; 151; 157; 163; 167; 173; 179; 181; 191; 193; 197; 199; 211; 223;
    227; 229; 233; 239; 241; 251; 257; 263; 269; 271; 277; 281; 283; 293; 307; 311 ].

(** Integer cube root, one bit at a time from bit [n - 1] down. *)
Fixpoint cbrt_bits (n : nat) (x r : Z) : Z :=
  match n with
  | O => r
  | S n' =>
      let c := r + 2 ^ Z.of_nat n' in
      cbrt_bits n' x (if c * c * c <=? x then c else r)
  end.

Definition frac_cbrt (p : Z) : Z := w32 (cbrt_bits 40 (p * 2 ^ 96) 0).
Definition frac_sqrt (p : Z) : Z := w32 (Z.sqrt (p * 2 ^ 64)).

Definition K : list Z := Eval vm_compute in map frac_cbrt primes.

(** The eight working words. *)
Record state := mkState
  { sa : Z; sb : Z; sc : Z; sd : Z; se : Z; sf : Z; sg : Z; sh : Z }.

Definition H0 : state :=
  Eval vm_compute in
    mkState (frac_sqrt 2) (frac_sqrt 3) (frac_sqrt 5) (frac_sqrt 7)
            (frac_sqrt 11) (frac_sqrt 13) (frac_sqrt 17) (frac_sqrt 19).

(** Padding: a 1 bit, zeros up to 56 mod 64, the bit length on 8 bytes. *)
Definition be_bytes (n : nat) (x : Z) : list Z :=
  map (fun i => (Z.shiftr x (8 * Z.of_nat i)) mod 256) (rev (seq 0 n)).

Definition pad (msg : list Z) : list Z :=
  let len := Z.of_nat (length msg) in
  let zeros := (55 - len) mod 64 in
  msg ++ [128] ++ repeat 0 (Z.to_nat zeros) ++ be_bytes 8 (8 * len).

Fixpoint be_words (bs : list Z) : list Z :=
  match bs with
  | b0 :: b1 :: b2 :: b3 :: rest =>
      (Z.shiftl b0 24 + Z.shiftl b1 16 + Z.shiftl b2 8 + b3) :: be_words rest
  | _ => []
  end.

Fixpoint chunks (fuel : nat) (ws : list Z) : list (list Z) :=
  match fuel, ws with
  | O, _ | _, [] => []
  | S fuel', _ => firstn 16 ws :: chunks fuel' (skipn 16 ws)
  end.

(** Message schedule: the 16 words of the block, extended to 64. *)
Fixpoint extend (n : nat) (w : list Z) : list Z :=
  match n with
  | O => w
  | S n' =>
      let t := length w in
      let at_ (k : nat) := nth (t - k) w 0 in
      extend n' (w ++ [w32 (sigma1 (at_ 2%nat) + at_ 7%nat
                            + sigma0 (at_ 15%nat) + at_ 16%nat)])
  end.

Definition round (s : state) (kw : Z * Z) : state :=
  let '(k, w) := kw in
  let t1 := w32 (sh s + Sigma1 (se s) + Ch (se s) (sf s) (sg s) + k + w) in
  let t2 := w32 (Sigma0 (sa s) + Maj (sa s) (sb s) (sc s)) in
  mkState (add32 t1 t2) (sa s) (sb s) (sc s) (add32 (sd s) t1) (se s) (sf s) (sg s).

Definition compress (h : state) (block : list Z) : state :=
  let s := fold_left round (combine K (extend 48 block)) h in
  mkState (add32 (sa h) (sa s)) (add32 (sb h) (sb s)) (add32 (sc h) (sc s))
          (add32 (sd h) (sd s)) (add32 (se h) (se s)) (add32 (sf h) (sf s))
          (add32 (sg h) (sg s)) (add32 (sh h) (sh s)).

Definition word_bytes (x : Z) : list Z :=
  [ (Z.shiftr x 24) mod 256; (Z.shiftr x 16) mod 256; (Z.shiftr x 8) mod 256; x mod 256 ].

Definition state_bytes (s : state) : list Z :=
  word_bytes (sa s) ++ word_bytes (sb s) ++ word_bytes (sc s) ++ word_bytes (sd s)
  ++ word_bytes (se s) ++ word_bytes (sf s) ++ word_bytes (sg s) ++ word_bytes (sh s).

(** The digest of a byte sequence: always 32 bytes. *)
Definition digest (msg : list Z) : list Z :=
  let ws := be_words (pad msg) in
  state_bytes (fold_left compress (chunks (length ws) ws) H0).

End SHA256.

(* ===================================================================== *)
(** ** [hashPassword] (identical in both components)                     *)
(* ===================================================================== *)

(** [encoder.encode(password)] *)
Definition encode (s : string) : list Z :=
  map (fun b => Z.of_N (Byte.to_N b)) (list_byte_of_string s).

Definition hex_digit (n : Z) : ascii :=
  ascii_of_N (Z.to_N (if n <? 10 then 48 + n else 87 + n)).

(** [b.toString(16).padStart(2, '0')] for a byte [b] *)
Definition hex2 (b : Z) : string :=
  String (hex_digit (b / 16)) (String (hex_digit (b mod 16)) EmptyString).

(** [.join('')] *)
Definition join (parts : list string) : string :=
  fold_right String.append EmptyString parts.

Definition hashPassword (password : string) : string :=
  let data := encode password in
  let hash := SHA256.digest data in
  join (map hex2 hash).

Arguments hashPassword : simpl never.


(* ===================================================================== *)
(** ** Data model                                                        *)
(* ===================================================================== *)

(** A row of [public.files], as the client sees it ([interface FileData]).
    [id] is the primary key; [password_hash] is nullable. *)
Record FileData := mkFileData
  { id : string;
    filename : string;
    file_path : string;
    file_size : Z;
    password_hash : option string;
    expires_at : Z }.

(** The browser's [File]: a name and bytes ([file.size] is their number). *)
Record File := mkFile { name : string; content : list byte }.

Definition file_byte_size (f : File) : Z := Z.of_nat (length (content f)).

(** An error object of the platform, and a toast of the UI. *)
Record ErrorObj := mkError { message : string }.

Record Toast := mkToast
  { title : string; description : string; variant : option string }.

(** JavaScript truthiness of a string and of a nullable string. *)
Definition truthy (s : string) : bool :=
  match s with EmptyString => false | String _ _ => true end.

Definition truthy_opt (s : option string) : bool :=
  match s with None => false | Some s => truthy s end.

(** [a !== b] for a string [a] and a nullable string [b]: code units are
    compared one by one, so letter case matters. *)
Definition strict_ne (a : string) (b : option string) : bool :=
  match b with
  | Some s => negb (String.eqb a s)
  | None => true
  end.

(* ===================================================================== *)
(** ** [Date]: time values and local-time fields                         *)
(* ===================================================================== *)

Module JSDate.

(** The time zone of the host: the offset of local time from UTC, in
    milliseconds, at an instant ([LocalTZA(t, true)]) and for a local time
    value ([LocalTZA(t, false)]); for a local time that occurs twice or not
    at all the latter is the offset in force before the transition. *)
Record TimeZone := mkTimeZone
  { offset_at : Z -> Z;
    offset_of_local : Z -> Z }.

Definition msPerDay : Z := 86400000.
Definition msPerHour : Z := 3600000.
Definition msPerMinute : Z := 60000.
Definition msPerSecond : Z := 1000.

Definition LocalTime (tz : TimeZone) (t : Z) : Z := t + offset_at tz t.
Definition UTC (tz : TimeZone) (t : Z) : Z := t - offset_of_local tz t.

Definition Day (t : Z) : Z := t / msPerDay.
Definition HourFromTime (t : Z) : Z := (t / msPerHour) mod 24.
Definition MinFromTime (t : Z) : Z := (t / msPerMinute) mod 60.
Definition SecFromTime (t : Z) : Z := (t / msPerSecond) mod 60.
Definition msFromTime (t : Z) : Z := t mod msPerSecond.

Definition MakeTime (hour min sec ms : Z) : Z :=
  hour * msPerHour + min * msPerMinute + sec * msPerSecond + ms.
Definition MakeDate (day time : Z) : Z := day * msPerDay + time.

(** [d.getMinutes()] for a date of time value [t] *)
Definition getMinutes (tz : TimeZone) (t : Z) : Z := MinFromTime (LocalTime tz t).

(** The time value after [d.setMinutes(min)]: the minutes field of the
    local time is replaced and the result read back as a local time.
    ([TimeClip] only rejects instants more than 10^8 days from the epoch.) *)
Definition setMinutes (tz : TimeZone) (t min : Z) : Z :=
  let local := LocalTime tz t in
  UTC tz (MakeDate (Day local)
                   (MakeTime (HourFromTime local) min (SecFromTime local)
                             (msFromTime local))).

(** A host on UTC. *)
Definition utc : TimeZone := mkTimeZone (fun _ => 0) (fun _ => 0).

End JSDate.

Arguments JSDate.getMinutes : simpl never.
Arguments JSDate.setMinutes : simpl never.

(* ===================================================================== *)
(** ** The backend: table [files] and bucket [files]                     *)
(* ===================================================================== *)

Module Supabase.

Record Backend := mkBackend
  { files : list FileData;                 (* rows of public.files *)
    objects : gmap string (list byte) }.   (* bucket: key -> bytes *)

(** What every client call resolves to: [{ data, error }]. *)
Record Response (A : Type) := mkResponse
  { data : option A; error : option ErrorObj }.
Arguments mkResponse {A}.
Arguments data {A}.
Arguments error {A}.

Definition ok {A} (a : A) : Response A := mkResponse (Some a) None.
Definition failed {A} (e : ErrorObj) : Response A := mkResponse None (Some e).

Definition succeeded {A} (r : Response A) : bool :=
  match error r with None => true | Some _ => false end.

(** Errors the platform raises by itself. *)
Definition no_single_row : ErrorObj :=
  mkError "JSON object requested, multiple (or no) rows returned".
Definition duplicate_key : ErrorObj :=
  mkError "duplicate key value violates unique constraint files_pkey".
Definition already_exists : ErrorObj := mkError "The resource already exists".
Definition object_not_found : ErrorObj := mkError "Object not found".

Definition id_is (fileId : string) (r : FileData) : bool := String.eqb (id r) fileId.
Definition expires_before (t : Z) (r : FileData) : bool := expires_at r <? t.

Section Calls.
Variable fault : option ErrorObj.  (* upstream failure of this call *)
Variable b : Backend.

(** [storage.from('files').upload(path, file)]; no upsert. *)
Definition storage_upload (path : string) (bytes : list byte)
  : Backend * Response unit :=
  match fault with
  | Some e => (b, failed e)
  | None =>
      match objects b !! path with
      | Some _ => (b, failed already_exists)
      | None => (mkBackend (files b) (<[path := bytes]> (objects b)), ok tt)
      end
  end.

(** [storage.from('files').download(path)] *)
Definition storage_download (path : string) : Backend * Response (list byte) :=
  match fault with
  | Some e => (b, failed e)
  | None =>
      match objects b !! path with
      | Some bytes => (b, ok bytes)
      | None => (b, failed object_not_found)
      end
  end.

(** [storage.from('files').remove(paths)]: absent keys are skipped. *)
Definition storage_remove (paths : list string) : Backend * Response unit :=
  match fault with
  | Some e => (b, failed e)
  | None => (mkBackend (files b) (foldr delete (objects b) paths), ok tt)
  end.

(** [from('files').insert(row)]; [id] is the primary key. *)
Definition files_insert (row : FileData) : Backend * Response unit :=
  match fault with
  | Some e => (b, failed e)
  | None =>
      if existsb (id_is (id row)) (files b)
      then (b, failed duplicate_key)
      else (mkBackend (files b ++ [row]) (objects b), ok tt)
  end.

(** [from('files').select('*').eq('id', fileId).single()]. [single()] asks
    for exactly one row: with no row (or several) the client resolves to
    [{ data: null, error }], the error being PostgREST's PGRST116. It is
    [maybeSingle()] that resolves to [{ data: null, error: null }] when no
    row matches. *)
Definition files_select_single (fileId : string) : Backend * Response FileData :=
  match fault with
  | Some e => (b, failed e)
  | None =>
      match List.filter (id_is fileId) (files b) with
      | [row] => (b, ok row)
      | _ => (b, failed no_single_row)
      end
  end.

(** [from('files').delete().eq('id', fileId)] *)
Definition files_delete_eq (fileId : string) : Backend * Response unit :=
  match fault with
  | Some e => (b, failed e)
  | None =>
      (mkBackend (List.filter (fun r => negb (id_is fileId r)) (files b)) (objects b),
       ok tt)
  end.

(** [from('files').select('*').lt('expires_at', t)] *)
Definition files_select_lt (t : Z) : Backend * Response (list FileData) :=
  match fault with
  | Some e => (b, failed e)
  | None => (b, ok (List.filter (expires_before t) (files b)))
  end.

(** [from('files').delete().lt('expires_at', t)] *)
Definition files_delete_lt (t : Z) : Backend * Response unit :=
  match fault with
  | Some e => (b, failed e)
  | None =>
      (mkBackend (List.filter (fun r => negb (expires_before t r)) (files b)) (objects b),
       ok tt)
  end.
End Calls.

(** The calls a flow makes, with whether each one succeeded. *)
Inductive Call :=
| StorageUpload (path : string) (succ : bool)
| StorageDownload (path : string) (succ : bool)
| StorageRemove (paths : list string) (succ : bool)
| FilesInsert (row : FileData) (succ : bool)
| FilesSelectSingle (fileId : string) (succ : bool)
| FilesDeleteEq (fileId : string) (succ : bool)
| FilesSelectLt (t : Z) (succ : bool)
| FilesDeleteLt (t : Z) (succ : bool).

End Supabase.
Import Supabase.

(* ===================================================================== *)
(** ** Flows: component state, backend, trace of calls, exceptions       *)
(* ===================================================================== *)

Section Flow.
Context {S : Type}.  (* the component's own state *)

Record Out (A : Type) := mkOut
  { ui : S;
    backend : Backend;
    calls : list Call;
    result : ErrorObj + A }.   (* [inl e]: [e] was thrown *)
Arguments mkOut {A}.
Arguments result {A}.

Definition M (A : Type) : Type := S -> Backend -> Out A.

Definition ret {A} (a : A) : M A := fun s b => mkOut s b [] (inr a).
Definition throw {A} (e : ErrorObj) : M A := fun s b => mkOut s b [] (inl e).

Definition bind {A B} (m : M A) (k : A -> M B) : M B :=
  fun s b =>
    match m s b with
    | mkOut s1 b1 c1 (inl e) => mkOut s1 b1 c1 (inl e)
    | mkOut s1 b1 c1 (inr a) =>
        match k a s1 b1 with
        | mkOut s2 b2 c2 r => mkOut s2 b2 (c1 ++ c2) r
        end
    end.

(** [try { m } catch (e) { h e }] *)
Definition try_catch {A} (m : M A) (h : ErrorObj -> M A) : M A :=
  fun s b =>
    match m s b with
    | mkOut s1 b1 c1 (inl e) =>
        match h e s1 b1 with
        | mkOut s2 b2 c2 r => mkOut s2 b2 (c1 ++ c2) r
        end
    | mkOut s1 b1 c1 (inr a) => mkOut s1 b1 c1 (inr a)
    end.

(** [try { m } finally { f }] *)
Definition finally {A} (m : M A) (f : M unit) : M A :=
  fun s b =>
    match m s b with
    | mkOut s1 b1 c1 r =>
        match f s1 b1 with
        | mkOut s2 b2 c2 (inl e) => mkOut s2 b2 (c1 ++ c2) (inl e)
        | mkOut s2 b2 c2 (inr _) => mkOut s2 b2 (c1 ++ c2) r
        end
    end.

Definition get : M S := fun s b => mkOut s b [] (inr s).
Definition modify (f : S -> S) : M unit := fun s b => mkOut (f s) b [] (inr tt).

(** A client call: run it on the backend and record it. *)
Definition call {A} (op : Backend -> Backend * Response A)
           (tag : bool -> Call) : M (Response A) :=
  fun s b =>
    let '(b', r) := op b in
    mkOut s b' [tag (succeeded r)] (inr r).
End Flow.

Arguments Out : clear implicits.
Arguments M : clear implicits.
Arguments mkOut {S A}.
Arguments ui {S A}.
Arguments backend {S A}.
Arguments calls {S A}.
Arguments result {S A}.

Declare Scope flow_scope.
Delimit Scope flow_scope with flow.
Notation "'let*' x ':=' m 'in' k" :=
  (bind m (fun x => k))
  (at level 10, x name, m at level 100, k at level 200) : flow_scope.
Notation "m ';;;' k" :=
  (bind m (fun _ => k))
  (at level 100, k at level 200, right associativity) : flow_scope.

Local Open Scope flow_scope.

(* ===================================================================== *)
(** ** The upload page (FileUpload.tsx)                                  *)
(* ===================================================================== *)

Module FileUpload.

(** The four items of the expiration [Select]. *)
Inductive Expiration := Min1 | Min2 | Min5 | Min10.

(** [parseInt(expirationMinutes)] *)
Definition parseInt (e : Expiration) : Z :=
  match e with Min1 => 1 | Min2 => 2 | Min5 => 5 | Min10 => 10 end.

Record State := mkState
  { file : option File;
    password : string;
    expirationMinutes : Expiration;
    uploading : bool;
    uploadProgress : Z;
    shareLink : string;
    toasts : list Toast }.

Definition initial : State := mkState None "" Min5 false 0 "" [].

(** [!file] *)
Definition is_none_file (f : option File) : bool :=
  match f with None => true | Some _ => false end.

Definition setUploading (v : bool) : M State unit :=
  modify (fun s => mkState (file s) (password s) (expirationMinutes s) v
                           (uploadProgress s) (shareLink s) (toasts s)).
Definition setUploadProgress (v : Z) : M State unit :=
  modify (fun s => mkState (file s) (password s) (expirationMinutes s) (uploading s)
                           v (shareLink s) (toasts s)).
Definition setShareLink (v : string) : M State unit :=
  modify (fun s => mkState (file s) (password s) (expirationMinutes s) (uploading s)
                           (uploadProgress s) v (toasts s)).
Definition toast (t : Toast) : M State unit :=
  modify (fun s => mkState (file s) (password s) (expirationMinutes s) (uploading s)
                           (uploadProgress s) (shareLink s) (toasts s ++ [t])).

(** What one run of [handleUpload] reads from the outside. *)
Record Env := mkEnv
  { randomUUID : string;               (* crypto.randomUUID() *)
    now : Z;                           (* new Date() *)
    origin : string;                   (* window.location.origin *)
    upload_fault : option ErrorObj;    (* of storage upload *)
    insert_fault : option ErrorObj;    (* of the insert *)
    timezone : JSDate.TimeZone }.      (* of the browser *)

Definition toast_no_file : Toast :=
  mkToast "Error" "Please select a file to upload" (Some "destructive").
Definition toast_success : Toast :=
  mkToast "Success!" "File uploaded successfully" None.
Definition toast_failed (e : ErrorObj) : Toast :=
  mkToast "Upload Failed" (message e) (Some "destructive").

Definition handleUpload (env : Env) : M State unit :=
  let* st := get in
  match file st with
  | None => toast toast_no_file
  | Some file =>
      setUploading true ;;;
      setUploadProgress 0 ;;;
      finally
        (try_catch
           (let fileId := randomUUID env in
            let filePath := "uploads/" +:+ fileId +:+ "/" +:+ name file in
            setUploadProgress 30 ;;;
            let* r := call (fun b => storage_upload (upload_fault env) b filePath (content file))
                           (StorageUpload filePath) in
            match error r with
            | Some uploadError => throw uploadError
            | None =>
                setUploadProgress 60 ;;;
                let expiresAt :=
                  JSDate.setMinutes (timezone env) (now env)
                    (JSDate.getMinutes (timezone env) (now env)
                     + parseInt (expirationMinutes st)) in
                let passwordHash :=
                  if truthy (password st) then Some (hashPassword (password st))
                  else None in
                let row := {| id := fileId;
                              filename := name file;
                              file_path := filePath;
                              file_size := file_byte_size file;
                              password_hash := passwordHash;
                              expires_at := expiresAt |} in
                let* r := call (fun b => files_insert (insert_fault env) b row)
                               (FilesInsert row) in
                match error r with
                | Some dbError => throw dbError
                | None =>
                    setUploadProgress 100 ;;;
                    let link := origin env +:+ "/download/" +:+ fileId in
                    setShareLink link ;;;
                    toast toast_success
                end
            end)
           (fun error => toast (toast_failed error)))
        (setUploading false)
  end.

(** [handleFileChange]: [e.target.files] may be null or empty, in which
    case the previous selection stays. *)
Definition handleFileChange (files : option (list File)) : M State unit :=
  match files with
  | Some (f :: _) =>
      modify (fun s => mkState (Some f) (password s) (expirationMinutes s) (uploading s)
                               (uploadProgress s) (shareLink s) (toasts s))
  | _ => ret tt
  end.

Definition resetForm : M State unit :=
  modify (fun s => mkState None "" Min5 (uploading s) 0 "" (toasts s)).

(** What is rendered: the form while there is no link, the link card after. *)
Inductive View :=
| Form (button_disabled : bool)
| LinkCard (link : string) (minutes : Z).

Definition render (s : State) : View :=
  if negb (truthy (shareLink s)) then
    Form (is_none_file (file s) || uploading s)
  else
    LinkCard (shareLink s) (parseInt (expirationMinutes s)).

End FileUpload.

(* ===================================================================== *)
(** ** The download page                                                 *)
(* ===================================================================== *)

Module FileDownload.

Record State := mkState
  { fileData : option FileData;
    password : string;
    loading : bool;
    downloading : bool;
    error : string;
    toasts : list Toast;
    saved : list (string * list byte) }.  (* files handed to the browser *)

Definition initial : State := mkState None "" true false "" [] [].

Definition setFileData (v : FileData) : M State unit :=
  modify (fun s => mkState (Some v) (password s) (loading s) (downloading s)
                           (error s) (toasts s) (saved s)).
Definition setPassword (v : string) : M State unit :=
  modify (fun s => mkState (fileData s) v (loading s) (downloading s)
                           (error s) (toasts s) (saved s)).
Definition setLoading (v : bool) : M State unit :=
  modify (fun s => mkState (fileData s) (password s) v (downloading s)
                           (error s) (toasts s) (saved s)).
Definition setDownloading (v : bool) : M State unit :=
  modify (fun s => mkState (fileData s) (password s) (loading s) v
                           (error s) (toasts s) (saved s)).
Definition setError (v : string) : M State unit :=
  modify (fun s => mkState (fileData s) (password s) (loading s) (downloading s)
                           v (toasts s) (saved s)).
Definition toast (t : Toast) : M State unit :=
  modify (fun s => mkState (fileData s) (password s) (loading s) (downloading s)
                           (error s) (toasts s ++ [t]) (saved s)).
(** The anchor element with [download = filename], clicked. *)
Definition save (filename : string) (blob : list byte) : M State unit :=
  modify (fun s => mkState (fileData s) (password s) (loading s) (downloading s)
                           (error s) (toasts s) (saved s ++ [(filename, blob)])).

Record LoadEnv := mkLoadEnv
  { now : Z;                           (* new Date() at the expiry test *)
    select_fault : option ErrorObj;
    remove_fault : option ErrorObj;
    delete_fault : option ErrorObj }.

Definition loadFileData (fileId : string) (env : LoadEnv) : M State unit :=
  finally
    (try_catch
       (let* r := call (fun b => files_select_single (select_fault env) b fileId)
                       (FilesSelectSingle fileId) in
        match Supabase.error r with
        | Some error => throw error
        | None =>
            match data r with
            | None => setError "File not found"
            | Some data =>
                let expiresAt := expires_at data in
                if expiresAt <? now env then
                  call (fun b => storage_remove (remove_fault env) b [file_path data])
                       (StorageRemove [file_path data]) ;;;
                  call (fun b => files_delete_eq (delete_fault env) b fileId)
                       (FilesDeleteEq fileId) ;;;
                  setError "File has expired and been deleted"
                else
                  setFileData data
            end
        end)
       (fun err => setError (message err)))
    (setLoading false).

Definition toast_password_required : Toast :=
  mkToast "Password Required" "Please enter the password" (Some "destructive").
Definition toast_incorrect_password : Toast :=
  mkToast "Incorrect Password" "The password you entered is incorrect"
          (Some "destructive").
Definition toast_success : Toast :=
  mkToast "Success!" "File downloaded successfully" None.
Definition toast_failed (e : ErrorObj) : Toast :=
  mkToast "Download Failed" (message e) (Some "destructive").

(** The part of [handleDownload] after the password gate. *)
Definition fetch_and_save (download_fault : option ErrorObj) (fileData : FileData)
  : M State unit :=
  setDownloading true ;;;
  finally
    (try_catch
       (let* r := call (fun b => storage_download download_fault b (file_path fileData))
                       (StorageDownload (file_path fileData)) in
        match Supabase.error r, data r with
        | Some error, _ => throw error
        | None, Some data =>
            save (filename fileData) data ;;;
            toast toast_success
        | None, None => throw (mkError "Failed to execute 'createObjectURL' on 'URL'")
        end)
       (fun err => toast (toast_failed err)))
    (setDownloading false).

Definition handleDownload (download_fault : option ErrorObj) : M State unit :=
  let* st := get in
  match fileData st with
  | None => ret tt
  | Some fileData =>
      if truthy_opt (password_hash fileData) then
        if negb (truthy (password st)) then
          toast toast_password_required
        else
          let hashedInput := hashPassword (password st) in
          if strict_ne hashedInput (password_hash fileData) then
            toast toast_incorrect_password
          else
            fetch_and_save download_fault fileData
      else
        fetch_and_save download_fault fileData
  end.

(** The password field is rendered under [fileData?.password_hash && ...]. *)
Definition shows_password_field (st : State) : bool :=
  match fileData st with
  | None => false
  | Some fd => truthy_opt (password_hash fd)
  end.

(** [getTimeRemaining], [now] being its [new Date()]. [Math.floor] of a
    quotient by a positive number is [Z.div]; [%] keeps the sign of the
    dividend, as [Z.rem] does. *)
Definition minutes (diff : Z) : Z := diff / 60000.
Definition seconds (diff : Z) : Z := Z.rem diff 60000 / 1000.

Definition getTimeRemaining (now : Z) (st : State) : string :=
  match fileData st with
  | None => ""
  | Some fileData =>
      let expires := expires_at fileData in
      let diff := expires - now in
      pretty (minutes diff) +:+ "m " +:+ pretty (seconds diff) +:+ "s"
  end.

(** The three returns of the component. *)
Inductive View :=
| Loading
| ErrorCard (error : string)
| DownloadCard (filename : option string) (password_field : bool).

Definition render (st : State) : View :=
  if loading st then Loading
  else if truthy (error st) then ErrorCard (error st)
  else DownloadCard (option_map filename (fileData st)) (shows_password_field st).

End FileDownload.

(* ===================================================================== *)
(** ** The expiry sweep (edge function, [Deno.serve])                    *)
(* ===================================================================== *)

Module ExpirySweep.

Record Request := mkRequest { method : string }.

(** The response bodies the handler can produce. *)
Inductive Body :=
| BodyOk                                                (* 'ok' *)
| BodyDeleted (message : string) (deletedCount : nat)   (* { message, deletedCount } *)
| BodyMessage (message : string)                        (* { message } *)
| BodyError (error : string).                           (* { error } *)

Record HttpResponse := mkHttpResponse { body : Body; status : Z }.

(** The handler's only state of its own: what [console.error] printed. *)
Definition Console : Type := list ErrorObj.

Definition console_error (e : ErrorObj) : M Console unit :=
  modify (fun log => log ++ [e]).

Record Env := mkEnv
  { select_now : Z;                    (* new Date() of the select *)
    delete_now : Z;                    (* new Date() of the delete *)
    select_fault : option ErrorObj;
    remove_fault : option ErrorObj;
    delete_fault : option ErrorObj }.

Definition no_expired : HttpResponse :=
  mkHttpResponse (BodyMessage "No expired files found") 200.

Definition deleted (n : nat) : HttpResponse :=
  mkHttpResponse (BodyDeleted ("Deleted " +:+ pretty n +:+ " expired files") n) 200.

Definition handler (req : Request) (env : Env) : M Console HttpResponse :=
  if String.eqb (method req) "OPTIONS" then
    ret (mkHttpResponse BodyOk 200)
  else
    try_catch
      (let* r := call (fun b => files_select_lt (select_fault env) b (select_now env))
                      (FilesSelectLt (select_now env)) in
       match error r with
       | Some fetchError => throw fetchError
       | None =>
           match data r with
           | Some expiredFiles =>
               if (0 <? length expiredFiles)%nat then
                 let filePaths := map file_path expiredFiles in
                 let* r := call (fun b => storage_remove (remove_fault env) b filePaths)
                                (StorageRemove filePaths) in
                 match error r with
                 | Some storageError => console_error storageError
                 | None => ret tt
                 end ;;;
                 let* r := call (fun b => files_delete_lt (delete_fault env) b (delete_now env))
                                (FilesDeleteLt (delete_now env)) in
                 match error r with
                 | Some dbError => throw dbError
                 | None => ret (deleted (length expiredFiles))
                 end
               else ret no_expired
           | None => ret no_expired
           end
       end)
      (fun error => ret (mkHttpResponse (BodyError (message error)) 400)).

(** A scheduled invocation: any request that is not a CORS preflight. *)
Definition sweep (env : Env) : M Console HttpResponse :=
  handler (mkRequest "POST") env.

End ExpirySweep.

(* ===================================================================== *)
(** ** Vocabulary of the statements                                      *)
(* ===================================================================== *)

Definition is_none {A} (o : option A) : bool :=
  match o with None => true | Some _ => false end.

(** The storage key and the row [handleUpload] computes for a file. *)
Definition storage_key (env : FileUpload.Env) (f : File) : string :=
  "uploads/" +:+ FileUpload.randomUUID env +:+ "/" +:+ name f.

Definition stored_hash (pw : string) : option string :=
  if truthy pw then Some (hashPassword pw) else None.

Definition row_for (env : FileUpload.Env) (st : FileUpload.State) (f : File) : FileData :=
  {| id := FileUpload.randomUUID env;
     filename := name f;
     file_path := storage_key env f;
     file_size := file_byte_size f;
     password_hash := stored_hash (FileUpload.password st);
     expires_at :=
       JSDate.setMinutes (FileUpload.timezone env) (FileUpload.now env)
         (JSDate.getMinutes (FileUpload.timezone env) (FileUpload.now env)
          + FileUpload.parseInt (FileUpload.expirationMinutes st)) |}.

(** A visit of the download page: load, type a password, press Download. *)
Definition visit (fileId : string) (env : FileDownload.LoadEnv) (typed : string)
           (download_fault : option ErrorObj) : M FileDownload.State unit :=
  FileDownload.loadFileData fileId env ;;;
  FileDownload.setPassword typed ;;;
  FileDownload.handleDownload download_fault.

(** The rows the sweep's first query returns at time [t]. *)
Definition expired_at (t : Z) (b : Backend) : list FileData :=
  List.filter (expires_before t) (files b).

(** The answer of the sweep handler's [catch]. *)
Definition http_error (e : ErrorObj) : ExpirySweep.HttpResponse :=
  ExpirySweep.mkHttpResponse (ExpirySweep.BodyError (message e)) 400.

(** A character of a lower-case hexadecimal numeral. *)
Definition is_lower_hex (c : ascii) : bool :=
  existsb (Ascii.eqb c) (list_ascii_of_string "0123456789abcdef").

(** No ["/"] occurs in the string (as in a UUID). *)
Definition no_slash (s : string) : bool :=
  forallb (fun c => negb (Ascii.eqb c "/")) (list_ascii_of_string s).

(** The primary key of [public.files]: no two rows share an [id]. *)
Definition primary_key_ok (b : Backend) : Prop := NoDup (map id (files b)).

(* ===================================================================== *)
(** ** Running the flows on small worlds                                 *)
(* ===================================================================== *)

Module Examples.

Definition report : File :=
  mkFile "report.pdf" (list_byte_of_string "0123456789").

Definition empty_backend : Backend := mkBackend [] ∅.

Definition up_state (pw : string) : FileUpload.State :=
  FileUpload.mkState (Some report) pw FileUpload.Min1 false 0 "" [].

Definition up_env : FileUpload.Env :=
  FileUpload.mkEnv "7f3c" 1000000 "https://share.example" None None JSDate.utc.

(** The backend after uploading report.pdf with password [pw]. *)
Definition after_upload (pw : string) : Backend :=
  backend (FileUpload.handleUpload up_env (up_state pw) empty_backend).

Definition load_env (t : Z) : FileDownload.LoadEnv :=
  FileDownload.mkLoadEnv t None None None.

(** A table with three rows, expiring at 100, 200 and 300, and their objects. *)
Definition row (i : string) (t : Z) : FileData :=
  mkFileData i (i +:+ ".txt") ("uploads/" +:+ i +:+ "/" +:+ i +:+ ".txt") 1 None t.

Definition three_rows : Backend :=
  mkBackend [row "a" 100; row "b" 200; row "c" 300]
            (<["uploads/a/a.txt" := []]>
               (<["uploads/b/b.txt" := []]> (<["uploads/c/c.txt" := []]> ∅))).

Definition storage_down : ErrorObj := mkError "storage unavailable".

(** A host whose clocks go back one hour, from UTC-4 to UTC-5, at the
    instant 1730613600000 (2024-11-03T06:00:00Z): local times from 01:00 to
    02:00 occur twice and are read with the earlier offset. *)
Definition fall_back : JSDate.TimeZone :=
  JSDate.mkTimeZone
    (fun t => if t <? 1730613600000 then -14400000 else -18000000)
    (fun local => if local <? 1730613600000 - 14400000 then -14400000 else -18000000).

(** An upload half an hour after that transition, expiring in 5 minutes. *)
Definition late_env : FileUpload.Env :=
  FileUpload.mkEnv "7f3c" 1730615400000 "https://share.example" None None fall_back.

Definition late_state : FileUpload.State :=
  FileUpload.mkState (Some report) "" FileUpload.Min5 false 0 "" [].

End Examples.

(* ===================================================================== *)
(** ** Test vectors and the scenario of the specification                *)
(* ===================================================================== *)

Example hashPassword_abc :
  hashPassword "abc"
  = "ba7816bf8f01cfea414140de5dae2223b00361a396177a9cb410ff61f20015ad".
Proof. vm_compute. reflexivity. Qed.

Example hashPassword_empty :
  hashPassword ""
  = "e3b0c44298fc1c149afbf4c8996fb92427ae41e4649b934ca495991b7852b855".
Proof. vm_compute. reflexivity. Qed.

Example hashPassword_two_blocks :
  hashPassword "abcdbcdecdefdefgefghfghighijhijkijkljklmklmnlmnomnopnopq"
  = "248d6a61d20638b8e5c026930c3e6039a33ce45964ff2167f6ecedd419db06c1".
Proof. vm_compute. reflexivity. Qed.

Example scenario_upload :
  let o := FileUpload.handleUpload Examples.up_env (Examples.up_state "abc")
                                   Examples.empty_backend in
  FileUpload.shareLink (ui o) = "https://share.example/download/7f3c"
  /\ map expires_at (files (backend o)) = [1060000]
  /\ map password_hash (files (backend o)) = [Some (hashPassword "abc")]
  /\ objects (backend o) !! "uploads/7f3c/report.pdf" = Some (content Examples.report).
Proof. vm_compute. repeat split. Qed.

Example scenario_wrong_password :
  let o := visit "7f3c" (Examples.load_env 1000001) "xyz" None
                 FileDownload.initial (Examples.after_upload "abc") in
  FileDownload.toasts (ui o) = [FileDownload.toast_incorrect_password]
  /\ FileDownload.saved (ui o) = []
  /\ backend o = Examples.after_upload "abc".
Proof. vm_compute. repeat split. Qed.

Example scenario_right_password :
  let o := visit "7f3c" (Examples.load_env 1000001) "abc" None
                 FileDownload.initial (Examples.after_upload "abc") in
  FileDownload.saved (ui o) = [("report.pdf", content Examples.report)]
  /\ FileDownload.toasts (ui o) = [FileDownload.toast_success].
Proof. vm_compute. repeat split. Qed.

Example scenario_after_61_seconds :
  let o := visit "7f3c" (Examples.load_env 1061000) "abc" None
                 FileDownload.initial (Examples.after_upload "abc") in
  FileDownload.error (ui o) = "File has expired and been deleted"
  /\ FileDownload.saved (ui o) = []
  /\ files (backend o) = []
  /\ objects (backend o) !! "uploads/7f3c/report.pdf" = None.
Proof. vm_compute. repeat split. Qed.

(* ===================================================================== *)
(** ** Facts about the backend and the hash                              *)
(* ===================================================================== *)

Ltac run_flow :=
  unfold finally, try_catch, bind, call, modify, get, ret, throw; cbn.

(** Adding [n] to the minutes field moves the local time by [n] minutes. *)
Lemma setMinutes_add (tz : JSDate.TimeZone) (t n : Z) :
  JSDate.setMinutes tz t (JSDate.getMinutes tz t + n)
  = JSDate.UTC tz (JSDate.LocalTime tz t + 60000 * n).
Proof.
  unfold JSDate.setMinutes, JSDate.getMinutes. cbv zeta.
  generalize (JSDate.LocalTime tz t). intros l. f_equal.
  unfold JSDate.MakeDate, JSDate.MakeTime, JSDate.Day, JSDate.HourFromTime,
    JSDate.MinFromTime, JSDate.SecFromTime, JSDate.msFromTime, JSDate.msPerDay,
    JSDate.msPerHour, JSDate.msPerMinute, JSDate.msPerSecond.
  Z.to_euclidean_division_equations. lia.
Qed.

(** When the offset read for the new local time is the one in force at
    [t], the instant moves by [n] minutes too. *)
Lemma setMinutes_steady (tz : JSDate.TimeZone) (t n : Z) :
  JSDate.offset_of_local tz (JSDate.LocalTime tz t + 60000 * n) = JSDate.offset_at tz t ->
  JSDate.setMinutes tz t (JSDate.getMinutes tz t + n) = t + 60000 * n.
Proof.
  intros H. rewrite setMinutes_add. unfold JSDate.UTC. rewrite H.
  unfold JSDate.LocalTime. lia.
Qed.

Lemma truthy_true_iff (s : string) : truthy s = true <-> s <> "".
Proof. destruct s; cbn; split; congruence. Qed.

Lemma truthy_false_iff (s : string) : truthy s = false <-> s = "".
Proof. destruct s; cbn; split; congruence. Qed.

(** The digest is rendered as 64 characters, so it is never the empty
    (falsy) string. *)
Lemma hashPassword_length (p : string) : String.length (hashPassword p) = 64%nat.
Proof.
  unfold hashPassword, SHA256.digest.
  destruct (fold_left _ _ _) as [a b c d e f g h].
  reflexivity.
Qed.

Lemma hashPassword_truthy (p : string) : truthy (hashPassword p) = true.
Proof.
  pose proof (hashPassword_length p) as L.
  destruct (hashPassword p); [discriminate L | reflexivity].
Qed.

Lemma strict_ne_same (s : string) : strict_ne s (Some s) = false.
Proof. cbn. now rewrite String.eqb_refl. Qed.

Lemma strict_ne_other (s h : string) : s <> h -> strict_ne s (Some h) = true.
Proof. intros N. cbn. now apply negb_true_iff, String.eqb_neq. Qed.

Lemma id_is_refl (r : FileData) : id_is (id r) r = true.
Proof. apply String.eqb_refl. Qed.

Lemma filter_id_absent (fileId : string) (tbl : list FileData) :
  existsb (id_is fileId) tbl = false -> List.filter (id_is fileId) tbl = [].
Proof.
  induction tbl as [|r tbl IH]; cbn; [easy|].
  intros [H1 H2]%orb_false_iff. rewrite H1. auto.
Qed.

Lemma filter_id_deleted (fileId : string) (tbl : list FileData) :
  List.filter (id_is fileId) (List.filter (fun r => negb (id_is fileId r)) tbl) = [].
Proof.
  induction tbl as [|r tbl IH]; cbn; [easy|].
  destruct (id_is fileId r) eqn:E; cbn; [easy|]. now rewrite E.
Qed.

Lemma filter_expired_deleted (t t' : Z) (tbl : list FileData) :
  t <= t' ->
  List.filter (expires_before t)
              (List.filter (fun r => negb (expires_before t' r)) tbl) = [].
Proof.
  intros Le. induction tbl as [|r tbl IH]; cbn; [easy|].
  destruct (expires_before t' r) eqn:E; cbn; [easy|].
  unfold expires_before in *. destruct (Z.ltb_spec (expires_at r) t); [|easy].
  apply Z.ltb_ge in E. lia.
Qed.

Lemma lookup_removed (paths : list string) (m : gmap string (list byte)) (p : string) :
  In p paths -> foldr delete m paths !! p = None.
Proof.
  induction paths as [|q paths IH]; cbn; [easy|].
  intros [->|H].
  - apply lookup_delete_eq.
  - destruct (decide (q = p)) as [->|N].
    + apply lookup_delete_eq.
    + rewrite lookup_delete_ne by easy. auto.
Qed.

(* ===================================================================== *)
(** ** Download: lookup, lazy expiry                                     *)
(* ===================================================================== *)

(** A live record is put on the page and nothing is touched. *)
Lemma loadFileData_live fileId env st b row :
  List.filter (id_is fileId) (files b) = [row] ->
  FileDownload.select_fault env = None ->
  FileDownload.now env <= expires_at row ->
  FileDownload.loadFileData fileId env st b
  = mkOut (FileDownload.mkState (Some row) (FileDownload.password st) false
             (FileDownload.downloading st) (FileDownload.error st)
             (FileDownload.toasts st) (FileDownload.saved st))
          b [FilesSelectSingle fileId true] (inr tt).
Proof.
  intros Hrow Hsel Hle. apply Z.ltb_ge in Hle.
  destruct env as [now sf rf df]; cbn in *; subst sf.
  unfold FileDownload.loadFileData. run_flow.
  rewrite Hrow; cbn. rewrite Hle. reflexivity.
Qed.

(** A lookup that matches no row: [single()] reports it as an error, which
    is thrown before [data] is looked at. *)
Lemma loadFileData_miss fileId env st b :
  List.filter (id_is fileId) (files b) = [] ->
  FileDownload.select_fault env = None ->
  let o := FileDownload.loadFileData fileId env st b in
  FileDownload.error (ui o) = message no_single_row
  /\ FileDownload.fileData (ui o) = FileDownload.fileData st
  /\ FileDownload.loading (ui o) = false
  /\ backend o = b
  /\ calls o = [FilesSelectSingle fileId false].
Proof.
  intros Hrow Hsel.
  destruct env as [now sf rf df]; cbn in *; subst sf.
  unfold FileDownload.loadFileData. run_flow.
  rewrite Hrow; cbn. repeat split.
Qed.

(** Whenever the single-row lookup resolves without an error it carries a
    row: the test [if (!data)] that follows [if (error) throw error] in
    [loadFileData] never succeeds. *)
Lemma single_without_error_has_data fault b fileId :
  let r := snd (files_select_single fault b fileId) in
  error r = None -> data r <> None.
Proof.
  unfold files_select_single. destruct fault as [e|]; cbn; [discriminate|].
  destruct (List.filter (id_is fileId) (files b)) as [|row [|row' rows]]; cbn;
    discriminate.
Qed.

(** C1 (as amended). When the lookup finds the record and the current time is
    strictly after [expires_at], [loadFileData] asks the storage to remove the
    object, asks the table to delete the row, and fails with the expired
    message without putting the record on the page. The answers of the two
    deletions are not inspected; when both succeed, the object and the row
    are gone and a follow-up lookup of the same id finds no row. *)
Theorem loadFileData_expired_purges fileId env st b row :
  List.filter (id_is fileId) (files b) = [row] ->
  FileDownload.select_fault env = None ->
  expires_at row < FileDownload.now env ->
  let o := FileDownload.loadFileData fileId env st b in
  FileDownload.error (ui o) = "File has expired and been deleted"
  /\ FileDownload.fileData (ui o) = FileDownload.fileData st
  /\ calls o = [ FilesSelectSingle fileId true;
                 StorageRemove [file_path row] (is_none (FileDownload.remove_fault env));
                 FilesDeleteEq fileId (is_none (FileDownload.delete_fault env)) ]
  /\ (FileDownload.remove_fault env = None ->
      FileDownload.delete_fault env = None ->
      objects (backend o) !! file_path row = None
      /\ List.filter (id_is fileId) (files (backend o)) = []
      /\ snd (files_select_single None (backend o) fileId) = failed no_single_row).
Proof.
  intros Hrow Hsel Hexp. apply Z.ltb_lt in Hexp.
  destruct env as [now sf rf df]; cbn in *; subst sf.
  unfold FileDownload.loadFileData. run_flow.
  rewrite Hrow; cbn. rewrite Hexp.
  destruct rf, df; cbn; repeat split; try discriminate.
  - apply lookup_delete_eq.
  - apply filter_id_deleted.
  - unfold files_select_single; cbn. now rewrite filter_id_deleted.
Qed.

Lemma loadFileData_expired_purges_witness :
  let o := FileDownload.loadFileData "7f3c" (Examples.load_env 1060001)
             FileDownload.initial (Examples.after_upload "abc") in
  FileDownload.error (ui o) = "File has expired and been deleted"
  /\ objects (backend o) !! "uploads/7f3c/report.pdf" = None
  /\ List.filter (id_is "7f3c") (files (backend o)) = [].
Proof.
  pose proof (loadFileData_expired_purges "7f3c" (Examples.load_env 1060001)
                FileDownload.initial (Examples.after_upload "abc")
                (mkFileData "7f3c" "report.pdf" "uploads/7f3c/report.pdf" 10
                            (Some (hashPassword "abc")) 1060000)) as H.
  cbv zeta in H.
  destruct H as (He & _ & _ & Hgone).
  - vm_compute. reflexivity.
  - reflexivity.
  - cbn. lia.
  - destruct Hgone as (Hobj & Hrow & _); [reflexivity | reflexivity |].
    cbv zeta. split; [exact He | split; [exact Hobj | exact Hrow]].
Defined.

(** C1 as stated, with [now >= expires_at], does not hold: at the instant
    [now = expires_at] (the upload of the scenario, visited at 1060000) the
    record is shown as live and neither the object nor the row is deleted. *)
Lemma loadFileData_at_expiry_instant :
  ~ (forall fileId env st b row,
       List.filter (id_is fileId) (files b) = [row] ->
       FileDownload.select_fault env = None ->
       FileDownload.remove_fault env = None ->
       FileDownload.delete_fault env = None ->
       FileDownload.now env >= expires_at row ->
       let o := FileDownload.loadFileData fileId env st b in
       FileDownload.error (ui o) = "File has expired and been deleted"
       /\ objects (backend o) !! file_path row = None
       /\ List.filter (id_is fileId) (files (backend o)) = []).
Proof.
  intros claim.
  destruct (claim "7f3c" (Examples.load_env 1060000) FileDownload.initial
                  (Examples.after_upload "abc")
                  (mkFileData "7f3c" "report.pdf" "uploads/7f3c/report.pdf" 10
                              (Some (hashPassword "abc")) 1060000))
    as (Herr & _).
  - vm_compute. reflexivity.
  - reflexivity.
  - reflexivity.
  - reflexivity.
  - cbn. lia.
  - vm_compute in Herr. discriminate Herr.
Qed.

(** What happens at that instant: the page shows the file, the backend is
    untouched. *)
Example visit_at_expiry_instant :
  let b := Examples.after_upload "abc" in
  let o := FileDownload.loadFileData "7f3c" (Examples.load_env 1060000)
                                     FileDownload.initial b in
  map expires_at (files b) = [1060000]
  /\ FileDownload.error (ui o) = ""
  /\ option_map filename (FileDownload.fileData (ui o)) = Some "report.pdf"
  /\ backend o = b
  /\ calls o = [FilesSelectSingle "7f3c" true].
Proof. vm_compute. repeat split. Qed.

(** C8, on a table without the requested id: the error shown is the
    client's own, not the text of the [!data] branch, which is never reached. *)
Lemma loadFileData_missing_id_message :
  let o := FileDownload.loadFileData "0000" (Examples.load_env 1000001)
             FileDownload.initial (Examples.after_upload "abc") in
  List.filter (id_is "0000") (files (Examples.after_upload "abc")) = []
  /\ FileDownload.error (ui o)
     = "JSON object requested, multiple (or no) rows returned"
  /\ FileDownload.error (ui o) <> "File not found".
Proof. vm_compute. repeat split. discriminate. Qed.

(* ===================================================================== *)
(** ** Upload                                                            *)
(* ===================================================================== *)


(** The identifier is fresh and the backend answers: the upload goes through. *)
Lemma handleUpload_success env st b f :
  FileUpload.file st = Some f ->
  FileUpload.upload_fault env = None ->
  FileUpload.insert_fault env = None ->
  objects b !! storage_key env f = None ->
  existsb (id_is (FileUpload.randomUUID env)) (files b) = false ->
  FileUpload.handleUpload env st b
  = mkOut (FileUpload.mkState (Some f) (FileUpload.password st)
             (FileUpload.expirationMinutes st) false 100
             (FileUpload.origin env +:+ "/download/" +:+ FileUpload.randomUUID env)
             (FileUpload.toasts st ++ [FileUpload.toast_success]))
          (mkBackend (files b ++ [row_for env st f])
                     (<[storage_key env f := content f]> (objects b)))
          [ StorageUpload (storage_key env f) true;
            FilesInsert (row_for env st f) true ]
          (inr tt).
Proof.
  intros Hf Hup Hins Hobj Hid.
  destruct env as [uuid now origin uf inf tz], st as [fl pw ex upl prog link ts].
  cbn in *. subst fl uf inf.
  unfold FileUpload.handleUpload. run_flow.
  unfold storage_upload, storage_key in *; cbn in *. rewrite Hobj; cbn.
  unfold files_insert; cbn. rewrite Hid; cbn.
  reflexivity.
Qed.

(** Every way [handleUpload] can go, by the calls it made. *)
Lemma handleUpload_calls env st b :
  let o := FileUpload.handleUpload env st b in
  (FileUpload.file st = None /\ calls o = [] /\ backend o = b)
  \/ (exists f, FileUpload.file st = Some f
        /\ calls o = [StorageUpload (storage_key env f) false]
        /\ backend o = b)
  \/ (exists f succ, FileUpload.file st = Some f
        /\ calls o = [ StorageUpload (storage_key env f) true;
                       FilesInsert (row_for env st f) succ ]
        /\ objects b !! storage_key env f = None
        /\ objects (backend o) = <[storage_key env f := content f]> (objects b)
        /\ files (backend o)
           = if succ then files b ++ [row_for env st f] else files b).
Proof.
  destruct env as [uuid now origin uf inf tz], st as [fl pw ex upl prog link ts].
  cbv zeta. destruct fl as [f|]; [|left; cbn; auto].
  right.
  unfold FileUpload.handleUpload. run_flow.
  unfold storage_upload, storage_key; cbn.
  destruct uf as [e|]; cbn; [left; exists f; auto|].
  destruct (objects b !! _) eqn:Hobj; cbn; [left; exists f; auto|].
  right. unfold files_insert; cbn.
  destruct inf as [e|]; cbn.
  - exists f, false. auto 10.
  - destruct (existsb _ _); cbn.
    + exists f, false. auto 10.
    + exists f, true. auto 10.
Qed.

(** C4. In every run of [handleUpload], an insert into the table is
    immediately preceded by the successful storage of the object under the
    row's [file_path], and is the last call; if the storage put fails, no
    insert is attempted and the table is unchanged; and whenever an insert
    succeeded the bucket holds the file's bytes under that key. *)
Theorem upload_object_before_metadata env st b :
  let o := FileUpload.handleUpload env st b in
  (forall pre row succ post,
      calls o = pre ++ FilesInsert row succ :: post ->
      pre = [StorageUpload (file_path row) true] /\ post = [])
  /\ (forall path, In (StorageUpload path false) (calls o) ->
        (forall row succ, ~ In (FilesInsert row succ) (calls o))
        /\ files (backend o) = files b)
  /\ (forall row, In (FilesInsert row true) (calls o) ->
        exists f, FileUpload.file st = Some f
                  /\ objects (backend o) !! file_path row = Some (content f)).
Proof.
  cbv zeta.
  destruct (handleUpload_calls env st b)
    as [(_ & -> & ->) | [(f & Hf & -> & ->) | (f & succ & Hf & -> & _ & Hobj & _)]].
  - split; [|split].
    + intros [|? ?] ? ? ? H; discriminate H.
    + intros ? [].
    + intros ? [].
  - split; [|split].
    + intros [|? [|? ?]] ? ? ? H; discriminate H.
    + intros path _. split; [|reflexivity].
      intros row succ [H|[]]. discriminate H.
    + intros row [H|[]]. discriminate H.
  - split; [|split].
    + intros [|c1 [|c2 [|c3 pre]]] row s post H; cbn in H.
      * discriminate H.
      * injection H as <- <- <- <-. auto.
      * injection H as _ _ H. discriminate H.
      * injection H as _ _ H. discriminate H.
    + intros path [H|[H|[]]]; discriminate H.
    + intros row [H|[H|[]]]; [discriminate H|].
      injection H as <- _. exists f. split; [exact Hf|].
      rewrite Hobj. cbn. apply lookup_insert_eq.
Qed.

(* ===================================================================== *)
(** ** Download: the password gate and the fetch                         *)
(* ===================================================================== *)

(** Past the gate, with the object in the bucket and the storage answering. *)
Lemma fetch_and_save_ok fd st b bytes :
  objects b !! file_path fd = Some bytes ->
  FileDownload.fetch_and_save None fd st b
  = mkOut (FileDownload.mkState (FileDownload.fileData st) (FileDownload.password st)
             (FileDownload.loading st) false (FileDownload.error st)
             (FileDownload.toasts st ++ [FileDownload.toast_success])
             (FileDownload.saved st ++ [(filename fd, bytes)]))
          b [StorageDownload (file_path fd) true] (inr tt).
Proof.
  intros Hobj. unfold FileDownload.fetch_and_save. run_flow.
  unfold storage_download; cbn. rewrite Hobj; cbn. reflexivity.
Qed.

(** Whatever the storage answers, the fetch issues exactly one download of
    the record's key, changes nothing in the backend, and ends with a
    success or a download-failed toast. *)
Lemma fetch_and_save_calls fault fd st b :
  let o := FileDownload.fetch_and_save fault fd st b in
  calls o = [StorageDownload (file_path fd)
               (is_none fault && negb (is_none (objects b !! file_path fd)))]
  /\ backend o = b
  /\ exists t, FileDownload.toasts (ui o) = FileDownload.toasts st ++ [t]
               /\ (title t = "Success!" \/ title t = "Download Failed").
Proof.
  unfold FileDownload.fetch_and_save. run_flow.
  unfold storage_download; cbn.
  destruct fault as [e|]; cbn.
  - repeat split. eexists; split; [reflexivity|]; cbn; auto.
  - destruct (objects b !! file_path fd); cbn;
      (repeat split; eexists; split; [reflexivity|]; cbn; auto).
Qed.

(** When the record has no (truthy) hash the gate is skipped, whatever is
    typed in the password field. *)
Lemma handleDownload_ungated fault st b fd :
  FileDownload.fileData st = Some fd ->
  truthy_opt (password_hash fd) = false ->
  FileDownload.handleDownload fault st b = FileDownload.fetch_and_save fault fd st b.
Proof.
  intros Hfd Hnull. unfold FileDownload.handleDownload, bind, get.
  rewrite Hfd, Hnull. now destruct (FileDownload.fetch_and_save fault fd st b).
Qed.

(** When the typed password hashes to the stored digest the gate opens. *)
Lemma handleDownload_match fault st b fd :
  FileDownload.fileData st = Some fd ->
  truthy (FileDownload.password st) = true ->
  password_hash fd = Some (hashPassword (FileDownload.password st)) ->
  FileDownload.handleDownload fault st b = FileDownload.fetch_and_save fault fd st b.
Proof.
  intros Hfd Hpw Hhash. unfold FileDownload.handleDownload, bind, get.
  rewrite Hfd, Hhash; cbn [truthy_opt].
  rewrite hashPassword_truthy, Hpw, strict_ne_same; cbn [negb].
  now destruct (FileDownload.fetch_and_save fault fd st b).
Qed.

(** C3. For a record whose [password_hash] is set (a non-empty string [h]):
    - with an empty password field the flow stops at password-required;
    - with a non-empty input whose digest differs from [h] it stops at
      incorrect-password;
    in both cases no call is made, so neither the object nor the row is
    deleted, and nothing is saved;
    - if [h] is the digest stored for an upload password [P] and the input
      is [P], the comparison succeeds and the flow goes on to fetch the
      bytes from storage. *)
Theorem handleDownload_password_gate fault st b fd h :
  FileDownload.fileData st = Some fd ->
  password_hash fd = Some h ->
  h <> "" ->
  let o := FileDownload.handleDownload fault st b in
  (FileDownload.password st = "" ->
     FileDownload.toasts (ui o)
     = FileDownload.toasts st ++ [FileDownload.toast_password_required]
     /\ calls o = [] /\ backend o = b
     /\ FileDownload.saved (ui o) = FileDownload.saved st)
  /\ (FileDownload.password st <> "" ->
      hashPassword (FileDownload.password st) <> h ->
      FileDownload.toasts (ui o)
      = FileDownload.toasts st ++ [FileDownload.toast_incorrect_password]
      /\ calls o = [] /\ backend o = b
      /\ FileDownload.saved (ui o) = FileDownload.saved st)
  /\ (forall P, P <> "" -> stored_hash P = Some h ->
      FileDownload.password st = P ->
      o = FileDownload.fetch_and_save fault fd st b
      /\ calls o = [StorageDownload (file_path fd)
                      (is_none fault && negb (is_none (objects b !! file_path fd)))]
      /\ (forall bytes, fault = None -> objects b !! file_path fd = Some bytes ->
          FileDownload.saved (ui o) = FileDownload.saved st ++ [(filename fd, bytes)])).
Proof.
  intros Hfd Hhash Hset. apply truthy_true_iff in Hset. cbv zeta.
  split; [|split].
  - intros Hempty. unfold FileDownload.handleDownload, bind, get.
    rewrite Hfd, Hhash; cbn [truthy_opt].
    rewrite Hset, Hempty. cbn. auto.
  - intros Hne Hdiff. apply truthy_true_iff in Hne.
    unfold FileDownload.handleDownload, bind, get.
    rewrite Hfd, Hhash; cbn [truthy_opt].
    rewrite Hset, Hne, (strict_ne_other _ _ Hdiff). cbn. auto.
  - intros P HP HPh Hin. apply truthy_true_iff in HP.
    unfold stored_hash in HPh. rewrite HP in HPh. injection HPh as <-.
    assert (E : FileDownload.handleDownload fault st b
                = FileDownload.fetch_and_save fault fd st b).
    { apply handleDownload_match; [assumption | now rewrite Hin | now rewrite Hin]. }
    rewrite E. split; [reflexivity|]. split.
    + apply fetch_and_save_calls.
    + intros bytes -> Hobj. now rewrite (fetch_and_save_ok _ _ _ _ Hobj).
Qed.

Lemma handleDownload_password_gate_witness :
  let b := Examples.after_upload "abc" in
  let row := mkFileData "7f3c" "report.pdf" "uploads/7f3c/report.pdf" 10
                        (Some (hashPassword "abc")) 1060000 in
  let typed pw := FileDownload.mkState (Some row) pw false false "" [] [] in
  FileDownload.toasts (ui (FileDownload.handleDownload None (typed "") b))
  = [FileDownload.toast_password_required]
  /\ FileDownload.toasts (ui (FileDownload.handleDownload None (typed "xyz") b))
     = [FileDownload.toast_incorrect_password]
  /\ FileDownload.saved (ui (FileDownload.handleDownload None (typed "abc") b))
     = [("report.pdf", content Examples.report)].
Proof.
  cbv zeta.
  set (row := mkFileData "7f3c" "report.pdf" "uploads/7f3c/report.pdf" 10
                         (Some (hashPassword "abc")) 1060000).
  set (typed := fun pw => FileDownload.mkState (Some row) pw false false "" [] []).
  assert (Hset : hashPassword "abc" <> "").
  { apply truthy_true_iff, hashPassword_truthy. }
  split; [|split].
  - destruct (handleDownload_password_gate None (typed "") (Examples.after_upload "abc")
                row (hashPassword "abc") eq_refl eq_refl Hset) as (H & _ & _).
    destruct (H eq_refl) as (Ht & _). exact Ht.
  - destruct (handleDownload_password_gate None (typed "xyz") (Examples.after_upload "abc")
                row (hashPassword "abc") eq_refl eq_refl Hset) as (_ & H & _).
    destruct H as (Ht & _); [discriminate | vm_compute; discriminate | exact Ht].
  - destruct (handleDownload_password_gate None (typed "abc") (Examples.after_upload "abc")
                row (hashPassword "abc") eq_refl eq_refl Hset) as (_ & _ & H).
    destruct (H "abc") as (_ & _ & Hs); [discriminate | reflexivity | reflexivity |].
    apply (Hs (content Examples.report)); [reflexivity | vm_compute; reflexivity].
Defined.

(** The comparison is on the characters of the hex string: the same digest
    written in upper case is rejected. *)
Example digest_compare_is_case_sensitive :
  strict_ne (hashPassword "abc")
    (Some "BA7816BF8F01CFEA414140DE5DAE2223B00361A396177A9CB410FF61F20015AD") = true.
Proof. vm_compute. reflexivity. Qed.

(* ===================================================================== *)
(** ** Upload, then download                                             *)
(* ===================================================================== *)


(** C2. Round trip. A file [f] is uploaded with password field [pw] under a
    fresh identifier, the backend answering; the row stored for it is the
    one row with that identifier. A visitor who opens the link no later than
    the [expires_at] of that row (what [setMinutes] gave at the upload),
    types [pw] (anything if [pw] is empty) and presses Download is handed
    exactly the bytes of [f] under the name of [f]. *)
Theorem upload_download_roundtrip uenv ust b f lenv typed :
  FileUpload.file ust = Some f ->
  FileUpload.upload_fault uenv = None ->
  FileUpload.insert_fault uenv = None ->
  objects b !! storage_key uenv f = None ->
  existsb (id_is (FileUpload.randomUUID uenv)) (files b) = false ->
  FileDownload.select_fault lenv = None ->
  FileDownload.now lenv <= expires_at (row_for uenv ust f) ->
  (FileUpload.password ust = "" \/ typed = FileUpload.password ust) ->
  let up := FileUpload.handleUpload uenv ust b in
  let down := visit (FileUpload.randomUUID uenv) lenv typed None
                    FileDownload.initial (backend up) in
  FileUpload.shareLink (ui up)
  = FileUpload.origin uenv +:+ "/download/" +:+ FileUpload.randomUUID uenv
  /\ List.filter (id_is (FileUpload.randomUUID uenv)) (files (backend up))
     = [row_for uenv ust f]
  /\ FileDownload.saved (ui down) = [(name f, content f)]
  /\ FileDownload.toasts (ui down) = [FileDownload.toast_success]
  /\ FileDownload.error (ui down) = ""
  /\ backend down = backend up.
Proof.
  intros Hf Hup Hins Hobj Hid Hsel Hlive Hpw. cbv zeta.
  rewrite (handleUpload_success _ _ _ _ Hf Hup Hins Hobj Hid). cbn [ui backend].
  split; [reflexivity|].
  set (row := row_for uenv ust f) in *.
  set (b1 := mkBackend _ _).
  assert (Hrow : List.filter (id_is (FileUpload.randomUUID uenv)) (files b1) = [row]).
  { subst b1; cbn [files]. rewrite List.filter_app, (filter_id_absent _ _ Hid).
    pose proof (id_is_refl row) as R.
    change (id row) with (FileUpload.randomUUID uenv) in R.
    cbn [List.filter app]. now rewrite R. }
  split; [exact Hrow|].
  assert (Hbytes : objects b1 !! file_path row = Some (content f)).
  { subst b1 row; cbn. apply lookup_insert_eq. }
  unfold visit, bind.
  rewrite (loadFileData_live _ _ _ _ row Hrow Hsel) by exact Hlive.
  cbn [result ui backend calls FileDownload.setPassword modify FileDownload.initial
       FileDownload.fileData FileDownload.password FileDownload.loading
       FileDownload.downloading FileDownload.error FileDownload.toasts
       FileDownload.saved].
  match goal with
  | |- context [FileDownload.handleDownload None ?s b1] =>
      assert (E : FileDownload.handleDownload None s b1
                  = FileDownload.fetch_and_save None row s b1)
  end.
  { destruct (truthy (FileUpload.password ust)) eqn:T.
    - destruct Hpw as [Hpw | ->]; [rewrite Hpw in T; discriminate T|].
      apply handleDownload_match; cbn; [reflexivity | exact T |].
      unfold stored_hash. now rewrite T.
    - apply handleDownload_ungated; cbn; [reflexivity|].
      unfold stored_hash. now rewrite T. }
  rewrite E, (fetch_and_save_ok _ _ _ _ Hbytes). cbn.
  repeat split.
Qed.

Lemma upload_download_roundtrip_witness :
  let up := FileUpload.handleUpload Examples.up_env (Examples.up_state "abc")
                                    Examples.empty_backend in
  let down := visit "7f3c" (Examples.load_env 1059999) "abc" None
                    FileDownload.initial (backend up) in
  FileUpload.shareLink (ui up) = "https://share.example/download/7f3c"
  /\ FileDownload.saved (ui down) = [("report.pdf", content Examples.report)].
Proof.
  destruct (upload_download_roundtrip Examples.up_env (Examples.up_state "abc")
              Examples.empty_backend Examples.report
              (Examples.load_env 1059999) "abc") as (Hl & _ & Hs & _).
  - reflexivity.
  - reflexivity.
  - reflexivity.
  - reflexivity.
  - reflexivity.
  - reflexivity.
  - apply Z.leb_le. vm_compute. reflexivity.
  - right. reflexivity.
  - cbv zeta. split; [exact Hl | exact Hs].
Defined.

(* ===================================================================== *)
(** ** The sweep                                                         *)
(* ===================================================================== *)


Lemma expired_at_spec (t : Z) (b : Backend) (r : FileData) :
  In r (expired_at t b) <-> In r (files b) /\ expires_at r < t.
Proof.
  unfold expired_at, expires_before. rewrite List.filter_In, Z.ltb_lt. reflexivity.
Qed.

(** The CORS preflight is answered at once; every other request runs the
    sweep. *)
Lemma handler_preflight env log b :
  ExpirySweep.handler (ExpirySweep.mkRequest "OPTIONS") env log b
  = mkOut log b [] (inr (ExpirySweep.mkHttpResponse ExpirySweep.BodyOk 200)).
Proof. reflexivity. Qed.

Lemma handler_sweeps req env :
  ExpirySweep.method req <> "OPTIONS" ->
  ExpirySweep.handler req env = ExpirySweep.sweep env.
Proof.
  intros Hm. unfold ExpirySweep.sweep, ExpirySweep.handler.
  destruct (String.eqb_spec (ExpirySweep.method req) "OPTIONS"); [contradiction|].
  reflexivity.
Qed.

(** Nothing has expired: one query, the no-op answer, nothing changes. *)
Lemma sweep_nothing_expired env log b :
  ExpirySweep.select_fault env = None ->
  expired_at (ExpirySweep.select_now env) b = [] ->
  ExpirySweep.sweep env log b
  = mkOut log b [FilesSelectLt (ExpirySweep.select_now env) true]
          (inr ExpirySweep.no_expired).
Proof.
  intros Hsel Hnone. destruct env as [t1 t2 sf rf df]; cbn in *; subst sf.
  unfold ExpirySweep.sweep, ExpirySweep.handler. run_flow.
  unfold expired_at in Hnone. rewrite Hnone. reflexivity.
Qed.

(** Something has expired and the table answers: three calls, the storage
    error (if any) goes to the console only. *)
Lemma sweep_some_expired env log b :
  ExpirySweep.select_fault env = None ->
  ExpirySweep.delete_fault env = None ->
  expired_at (ExpirySweep.select_now env) b <> [] ->
  let expired := expired_at (ExpirySweep.select_now env) b in
  ExpirySweep.sweep env log b
  = mkOut (match ExpirySweep.remove_fault env with
           | Some storageError => log ++ [storageError]
           | None => log
           end)
          (mkBackend
             (List.filter (fun r => negb (expires_before (ExpirySweep.delete_now env) r))
                          (files b))
             (match ExpirySweep.remove_fault env with
              | Some _ => objects b
              | None => foldr delete (objects b) (map file_path expired)
              end))
          [ FilesSelectLt (ExpirySweep.select_now env) true;
            StorageRemove (map file_path expired) (is_none (ExpirySweep.remove_fault env));
            FilesDeleteLt (ExpirySweep.delete_now env) true ]
          (inr (ExpirySweep.deleted (length expired))).
Proof.
  intros Hsel Hdel Hsome. destruct env as [t1 t2 sf rf df]; cbn in *; subst sf df.
  unfold ExpirySweep.sweep, ExpirySweep.handler. run_flow.
  unfold expired_at in *.
  destruct (List.filter (expires_before t1) (files b)) as [|r rs] eqn:E; [easy|].
  cbn. destruct rf; reflexivity.
Qed.

Lemma filter_partition_length {A} (p : A -> bool) (l : list A) :
  length l = (length (List.filter (fun x => negb (p x)) l) + length (List.filter p l))%nat.
Proof.
  induction l as [|x l IH]; cbn; [reflexivity|].
  destruct (p x); cbn; lia.
Qed.

Lemma filter_length_mono {A} (p q : A -> bool) (l : list A) :
  (forall x, In x l -> p x = true -> q x = true) ->
  (length (List.filter p l) <= length (List.filter q l))%nat.
Proof.
  induction l as [|x l IH]; cbn; [lia|]. intros H.
  assert (IH' : (length (List.filter p l) <= length (List.filter q l))%nat).
  { apply IH. intros y Hy. apply H. now right. }
  destruct (p x) eqn:Hp.
  - rewrite (H x (or_introl eq_refl) Hp). cbn. lia.
  - destruct (q x); cbn; lia.
Qed.

(** C5 (as amended). For every sweep whose two table calls are answered (the
    clock not running backwards between them): the first query selects
    exactly the rows with [expires_at] strictly before the current time; if
    there are none the job answers [{ message: 'No expired files found' }]
    and changes nothing; otherwise it asks the storage to remove their
    objects as one batch, a failure of which is only written to the console,
    then deletes the rows that are expired at a fresh timestamp, so that none
    of the selected rows remains, and answers 200 with [deletedCount] the
    number of rows the first query selected. That number is at most the
    number of rows deleted, and equal to it when no row expires between the
    two timestamps. *)
Theorem sweep_selects_purges_reports env log b :
  ExpirySweep.select_fault env = None ->
  ExpirySweep.delete_fault env = None ->
  ExpirySweep.select_now env <= ExpirySweep.delete_now env ->
  let expired := expired_at (ExpirySweep.select_now env) b in
  let o := ExpirySweep.sweep env log b in
  (forall r, In r expired <-> In r (files b) /\ expires_at r < ExpirySweep.select_now env)
  /\ (expired = [] ->
      result o = inr (ExpirySweep.mkHttpResponse
                        (ExpirySweep.BodyMessage "No expired files found") 200)
      /\ backend o = b /\ ui o = log
      /\ calls o = [FilesSelectLt (ExpirySweep.select_now env) true])
  /\ (expired <> [] ->
      calls o = [ FilesSelectLt (ExpirySweep.select_now env) true;
                  StorageRemove (map file_path expired)
                                (is_none (ExpirySweep.remove_fault env));
                  FilesDeleteLt (ExpirySweep.delete_now env) true ]
      /\ result o
         = inr (ExpirySweep.mkHttpResponse
                  (ExpirySweep.BodyDeleted
                     ("Deleted " +:+ pretty (length expired) +:+ " expired files")
                     (length expired))
                  200)
      /\ (forall r, In r expired -> ~ In r (files (backend o)))
      /\ (forall r, In r (files (backend o)) <->
                    In r (files b) /\ ExpirySweep.delete_now env <= expires_at r)
      /\ (length expired <= length (files b) - length (files (backend o)))%nat
      /\ ((forall r, In r (files b) ->
                     ~ (ExpirySweep.select_now env <= expires_at r
                        < ExpirySweep.delete_now env)) ->
          length expired = (length (files b) - length (files (backend o)))%nat)
      /\ (forall e, ExpirySweep.remove_fault env = Some e ->
                    ui o = log ++ [e] /\ objects (backend o) = objects b)
      /\ (ExpirySweep.remove_fault env = None ->
          ui o = log
          /\ forall r, In r expired -> objects (backend o) !! file_path r = None)).
Proof.
  intros Hsel Hdel Hclock. cbv zeta.
  split; [intros r; apply expired_at_spec|]. split.
  - intros Hnone. rewrite (sweep_nothing_expired _ _ _ Hsel Hnone). auto.
  - intros Hsome. rewrite (sweep_some_expired _ _ _ Hsel Hdel Hsome).
    cbn [calls result backend ui files objects].
    assert (Hleft : forall r,
               In r (List.filter (fun r => negb (expires_before (ExpirySweep.delete_now env) r))
                                 (files b))
               <-> In r (files b) /\ ExpirySweep.delete_now env <= expires_at r).
    { intros r. unfold expires_before.
      rewrite List.filter_In, negb_true_iff, Z.ltb_ge. reflexivity. }
    pose proof (filter_partition_length (expires_before (ExpirySweep.delete_now env))
                  (files b)) as Hpart.
    split; [reflexivity|]. split; [reflexivity|].
    split; [|split; [exact Hleft|split; [|split; [|split]]]].
    + intros r Hr Hin. apply expired_at_spec in Hr. apply Hleft in Hin. lia.
    + assert (Hmono : (length (expired_at (ExpirySweep.select_now env) b)
                       <= length (List.filter (expires_before (ExpirySweep.delete_now env))
                                              (files b)))%nat).
      { apply filter_length_mono. intros r _. unfold expires_before.
        rewrite !Z.ltb_lt. lia. }
      lia.
    + intros Hnone.
      assert (Heq : expired_at (ExpirySweep.select_now env) b
                    = List.filter (expires_before (ExpirySweep.delete_now env)) (files b)).
      { unfold expired_at. apply List.filter_ext_in. intros r Hr.
        specialize (Hnone r Hr). unfold expires_before.
        destruct (Z.ltb_spec (expires_at r) (ExpirySweep.select_now env)),
                 (Z.ltb_spec (expires_at r) (ExpirySweep.delete_now env)); try reflexivity; lia. }
      rewrite Heq. lia.
    + intros e He. rewrite He. auto.
    + intros Hn. rewrite Hn. split; [reflexivity|].
      intros r Hr. apply lookup_removed, in_map, Hr.
Qed.

Lemma sweep_selects_purges_reports_witness :
  let env := ExpirySweep.mkEnv 150 150 None (Some Examples.storage_down) None in
  let o := ExpirySweep.sweep env [] Examples.three_rows in
  result o = inr (ExpirySweep.mkHttpResponse
                    (ExpirySweep.BodyDeleted "Deleted 1 expired files" 1) 200)
  /\ ui o = [Examples.storage_down]
  /\ ~ In (Examples.row "a" 100) (files (backend o))
  /\ objects (backend o) = objects Examples.three_rows.
Proof.
  set (env := ExpirySweep.mkEnv 150 150 None (Some Examples.storage_down) None).
  destruct (sweep_selects_purges_reports env [] Examples.three_rows)
    as (_ & _ & H); [reflexivity | reflexivity | cbn; lia |].
  destruct H as (_ & Hres & Hgone & _ & _ & _ & Hlog & _); [discriminate|].
  destruct (Hlog Examples.storage_down eq_refl) as (Hui & Hobj).
  cbv zeta. split; [exact Hres|]. split; [exact Hui|]. split; [|exact Hobj].
  apply Hgone. left. reflexivity.
Defined.

(** C5 as stated, with the answer being a count of the records deleted, does
    not hold: on the table with rows expiring at 100, 200 and 300, a sweep
    that selects at 150 and deletes at 250 removes two rows and answers
    [deletedCount: 1]. *)
Lemma sweep_count_is_not_rows_deleted :
  ~ (forall env log b,
       ExpirySweep.select_fault env = None ->
       ExpirySweep.delete_fault env = None ->
       ExpirySweep.select_now env <= ExpirySweep.delete_now env ->
       let o := ExpirySweep.sweep env log b in
       forall message deletedCount,
         result o = inr (ExpirySweep.mkHttpResponse
                           (ExpirySweep.BodyDeleted message deletedCount) 200) ->
         deletedCount = (length (files b) - length (files (backend o)))%nat).
Proof.
  intros claim.
  specialize (claim (ExpirySweep.mkEnv 150 250 None None None) [] Examples.three_rows
                    eq_refl eq_refl).
  cbv zeta in claim.
  assert (H : 1%nat = 2%nat).
  { apply (claim ltac:(cbn; lia) "Deleted 1 expired files" 1%nat). vm_compute. reflexivity. }
  discriminate H.
Qed.

(** The metadata delete fails: the error is thrown and answered with 400;
    no count is reported. *)
Lemma sweep_delete_failed env log b e :
  ExpirySweep.select_fault env = None ->
  ExpirySweep.delete_fault env = Some e ->
  expired_at (ExpirySweep.select_now env) b <> [] ->
  result (ExpirySweep.sweep env log b)
  = inr (ExpirySweep.mkHttpResponse (ExpirySweep.BodyError (message e)) 400).
Proof.
  intros Hsel Hdel Hsome. destruct env as [t1 t2 sf rf df]; cbn in *; subst sf df.
  unfold ExpirySweep.sweep, ExpirySweep.handler. run_flow.
  unfold expired_at in *.
  destruct (List.filter (expires_before t1) (files b)) as [|r rs] eqn:E; [easy|].
  cbn. destruct rf; reflexivity.
Qed.

(** C10. When the first query of a sweep returns [n > 0] rows, a sweep whose
    metadata delete is answered responds 200 with the body
    [{ message: 'Deleted n expired files', deletedCount: n }]; any
    [deletedCount] the sweep reports equals [n]; and the response is this
    one for every outcome of the storage removal and every timestamp used by
    the metadata delete. *)
Theorem sweep_count_is_query_size env log b :
  ExpirySweep.select_fault env = None ->
  let n := length (expired_at (ExpirySweep.select_now env) b) in
  (0 < n)%nat ->
  let o := ExpirySweep.sweep env log b in
  let answer :=
    ExpirySweep.mkHttpResponse
      (ExpirySweep.BodyDeleted ("Deleted " +:+ pretty n +:+ " expired files") n) 200 in
  (ExpirySweep.delete_fault env = None -> result o = inr answer)
  /\ (forall resp msg c,
        result o = inr resp -> ExpirySweep.body resp = ExpirySweep.BodyDeleted msg c ->
        c = n)
  /\ (forall t2 rf,
        result (ExpirySweep.sweep
                  (ExpirySweep.mkEnv (ExpirySweep.select_now env) t2 None rf None) log b)
        = inr answer).
Proof.
  intros Hsel n Hn. cbv zeta.
  assert (Hsome : expired_at (ExpirySweep.select_now env) b <> []).
  { subst n. destruct (expired_at _ b); [cbn in Hn; lia | discriminate]. }
  split; [|split].
  - intros Hdel. now rewrite (sweep_some_expired _ _ _ Hsel Hdel Hsome).
  - intros resp msg c Hres Hbody.
    destruct (ExpirySweep.delete_fault env) as [e|] eqn:Hdel.
    + rewrite (sweep_delete_failed _ _ _ e Hsel Hdel Hsome) in Hres.
      injection Hres as <-. discriminate Hbody.
    + rewrite (sweep_some_expired _ _ _ Hsel Hdel Hsome) in Hres.
      injection Hres as <-. cbn in Hbody. now injection Hbody as _ <-.
  - intros t2 rf.
    now rewrite (sweep_some_expired (ExpirySweep.mkEnv _ t2 None rf None) log b
                   eq_refl eq_refl Hsome).
Qed.

Lemma sweep_count_is_query_size_witness :
  result (ExpirySweep.sweep (ExpirySweep.mkEnv 150 250 None (Some Examples.storage_down) None)
                            [] Examples.three_rows)
  = inr (ExpirySweep.mkHttpResponse
           (ExpirySweep.BodyDeleted "Deleted 1 expired files" 1) 200).
Proof.
  destruct (sweep_count_is_query_size
              (ExpirySweep.mkEnv 150 250 None (Some Examples.storage_down) None)
              [] Examples.three_rows) as (H & _).
  - reflexivity.
  - cbn. lia.
  - apply H. reflexivity.
Defined.

(** The count is the size of the first query, not the number of rows the
    delete removes: with a later timestamp at the delete, two rows go and
    one is reported; the object of the second row stays in the bucket. *)
Example sweep_count_differs_from_rows_deleted :
  let o := ExpirySweep.sweep (ExpirySweep.mkEnv 150 250 None None None)
                             [] Examples.three_rows in
  result o = inr (ExpirySweep.deleted 1)
  /\ files (backend o) = [Examples.row "c" 300]
  /\ objects (backend o) !! "uploads/b/b.txt" = Some [].
Proof. vm_compute. repeat split. Qed.

Lemma expired_at_nil (t : Z) (b : Backend) :
  (forall r, In r (files b) -> t <= expires_at r) -> expired_at t b = [].
Proof.
  intros H. destruct (expired_at t b) as [|r rs] eqn:E; [reflexivity|].
  assert (Hr : In r (expired_at t b)) by (rewrite E; now left).
  apply expired_at_spec in Hr. destruct Hr as [Hin Hlt].
  specialize (H r Hin). lia.
Qed.



(* ===================================================================== *)
(** ** Uploads without a password                                        *)
(* ===================================================================== *)

(** The only row [handleUpload] ever sends to the table is [row_for]. *)
Lemma handleUpload_inserted_row env st b row succ :
  In (FilesInsert row succ) (calls (FileUpload.handleUpload env st b)) ->
  exists f, FileUpload.file st = Some f /\ row = row_for env st f.
Proof.
  destruct (handleUpload_calls env st b)
    as [(_ & -> & _) | [(f & _ & -> & _) | (f & s & Hf & -> & _)]].
  - intros [].
  - intros [H|[]]. discriminate H.
  - intros [H|[H|[]]]; [discriminate H|].
    injection H as <- _. eauto.
Qed.

(** A row is in the table after [handleUpload] only if it was there before
    or is the one whose insert succeeded. *)
Lemma handleUpload_stored_row env st b row :
  In row (files (backend (FileUpload.handleUpload env st b))) ->
  In row (files b)
  \/ In (FilesInsert row true) (calls (FileUpload.handleUpload env st b)).
Proof.
  destruct (handleUpload_calls env st b)
    as [(_ & _ & ->) | [(f & _ & _ & ->) | (f & s & Hf & -> & _ & _ & ->)]];
    [now left | now left |].
  destruct s; [|now left].
  rewrite in_app_iff. intros [H|[<-|[]]]; [now left|].
  right. right. now left.
Qed.

(** C7. After an upload made with no password (the password field left
    empty), any row the flow wrote has no [password_hash]; on the download
    page of such a row the password field is not rendered, and pressing
    Download goes straight to fetching the object, whatever the state of
    the page: the outcome is a success or a download failure, never a
    password prompt. *)
Theorem upload_without_password_never_gated env st b :
  FileUpload.password st = "" ->
  let o := FileUpload.handleUpload env st b in
  (forall row, In row (files (backend o)) ->
               In row (files b) \/ In (FilesInsert row true) (calls o))
  /\ forall row succ, In (FilesInsert row succ) (calls o) ->
       password_hash row = None
       /\ forall fault dst b', FileDownload.fileData dst = Some row ->
            FileDownload.shows_password_field dst = false
            /\ FileDownload.handleDownload fault dst b'
               = FileDownload.fetch_and_save fault row dst b'
            /\ exists t,
                 FileDownload.toasts (ui (FileDownload.handleDownload fault dst b'))
                 = FileDownload.toasts dst ++ [t]
                 /\ (title t = "Success!" \/ title t = "Download Failed").
Proof.
  intros Hpw. cbv zeta. split; [apply handleUpload_stored_row|].
  intros row succ Hin.
  destruct (handleUpload_inserted_row _ _ _ _ _ Hin) as (f & _ & ->).
  assert (Hnull : password_hash (row_for env st f) = None).
  { cbn. now rewrite Hpw. }
  split; [exact Hnull|].
  intros fault dst b' Hfd.
  assert (Hfalsy : truthy_opt (password_hash (row_for env st f)) = false)
    by now rewrite Hnull.
  split; [|split].
  - unfold FileDownload.shows_password_field. now rewrite Hfd.
  - now apply handleDownload_ungated.
  - rewrite (handleDownload_ungated fault dst b' _ Hfd Hfalsy).
    apply fetch_and_save_calls.
Qed.

Lemma upload_without_password_never_gated_witness :
  let o := FileUpload.handleUpload Examples.up_env (Examples.up_state "")
                                   Examples.empty_backend in
  let row := row_for Examples.up_env (Examples.up_state "") Examples.report in
  files (backend o) = [row]
  /\ password_hash row = None
  /\ FileDownload.shows_password_field
       (FileDownload.mkState (Some row) "" false false "" [] []) = false.
Proof.
  cbv zeta.
  destruct (upload_without_password_never_gated Examples.up_env (Examples.up_state "")
              Examples.empty_backend eq_refl) as (_ & H).
  destruct (H (row_for Examples.up_env (Examples.up_state "") Examples.report) true)
    as (Hnull & Hpage).
  - right. left. reflexivity.
  - split; [reflexivity|]. split; [exact Hnull|].
    destruct (Hpage None
                (FileDownload.mkState
                   (Some (row_for Examples.up_env (Examples.up_state "") Examples.report))
                   "" false false "" [] [])
                Examples.empty_backend eq_refl) as (Hfield & _).
    exact Hfield.
Defined.

(** C9. An upload whose password input is the empty string writes a row
    whose [password_hash] is null, and in particular not the SHA-256 digest
    of the empty string; for such a row, whatever is typed in the password
    field of the download page (nothing included), Download issues the
    storage fetch and the password is not looked at. *)
Theorem empty_password_stores_null env st b :
  FileUpload.password st = "" ->
  let o := FileUpload.handleUpload env st b in
  forall row succ, In (FilesInsert row succ) (calls o) ->
    password_hash row = None
    /\ password_hash row
       <> Some "e3b0c44298fc1c149afbf4c8996fb92427ae41e4649b934ca495991b7852b855"
    /\ password_hash row <> Some (hashPassword "")
    /\ forall typed fault dst b',
         FileDownload.fileData dst = Some row ->
         FileDownload.password dst = typed ->
         let d := FileDownload.handleDownload fault dst b' in
         calls d = [StorageDownload (file_path row)
                      (is_none fault && negb (is_none (objects b' !! file_path row)))]
         /\ (forall bytes, fault = None -> objects b' !! file_path row = Some bytes ->
             FileDownload.saved (ui d) = FileDownload.saved dst ++ [(filename row, bytes)]).
Proof.
  intros Hpw. cbv zeta. intros row succ Hin.
  destruct (handleUpload_inserted_row _ _ _ _ _ Hin) as (f & _ & ->).
  assert (Hnull : password_hash (row_for env st f) = None).
  { cbn. now rewrite Hpw. }
  rewrite Hnull. split; [reflexivity|]. split; [discriminate|]. split; [discriminate|].
  intros typed fault dst b' Hfd _.
  assert (Hfalsy : truthy_opt (password_hash (row_for env st f)) = false)
    by now rewrite Hnull.
  rewrite (handleDownload_ungated fault dst b' _ Hfd Hfalsy). split.
  - apply fetch_and_save_calls.
  - intros bytes -> Hobj. now rewrite (fetch_and_save_ok _ _ _ _ Hobj).
Qed.

Lemma empty_password_stores_null_witness :
  let row := row_for Examples.up_env (Examples.up_state "") Examples.report in
  let page := FileDownload.mkState (Some row) "" false false "" [] [] in
  password_hash row = None
  /\ FileDownload.saved (ui (FileDownload.handleDownload None page (Examples.after_upload "")))
     = [("report.pdf", content Examples.report)].
Proof.
  cbv zeta.
  destruct (empty_password_stores_null Examples.up_env (Examples.up_state "")
              Examples.empty_backend eq_refl
              (row_for Examples.up_env (Examples.up_state "") Examples.report) true)
    as (Hnull & _ & _ & Hpage).
  - right. left. reflexivity.
  - split; [exact Hnull|].
    destruct (Hpage "" None
                (FileDownload.mkState
                   (Some (row_for Examples.up_env (Examples.up_state "") Examples.report))
                   "" false false "" [] [])
                (Examples.after_upload "") eq_refl eq_refl) as (_ & Hsaved).
    apply (Hsaved (content Examples.report)); [reflexivity | vm_compute; reflexivity].
Defined.

(** Had the digest of the empty string been stored instead, the record
    could not be downloaded with an empty password field. *)
Example digest_of_empty_would_gate :
  let row := mkFileData "7f3c" "report.pdf" "uploads/7f3c/report.pdf" 10
                        (Some (hashPassword "")) 1060000 in
  let page := FileDownload.mkState (Some row) "" false false "" [] [] in
  FileDownload.toasts (ui (FileDownload.handleDownload None page (Examples.after_upload "")))
  = [FileDownload.toast_password_required].
Proof. vm_compute. reflexivity. Qed.

(* ===================================================================== *)
(** ** Further properties: the digest as text                            *)
(* ===================================================================== *)

Lemma hex_digit_lower (n : Z) : 0 <= n < 16 -> is_lower_hex (hex_digit n) = true.
Proof.
  intros H.
  assert (All : forallb (fun k => is_lower_hex (hex_digit (Z.of_nat k))) (seq 0 16) = true)
    by reflexivity.
  rewrite forallb_forall in All.
  specialize (All (Z.to_nat n)). rewrite Z2Nat.id in All by lia.
  apply All, in_seq. lia.
Qed.

Lemma list_ascii_of_append (a b : string) :
  list_ascii_of_string (a +:+ b) = list_ascii_of_string a ++ list_ascii_of_string b.
Proof. induction a as [|c a IH]; simpl; [reflexivity | now f_equal]. Qed.

Lemma join_hex_lower (bytes : list Z) :
  Forall (fun x => 0 <= x < 256) bytes ->
  forallb is_lower_hex (list_ascii_of_string (join (map hex2 bytes))) = true.
Proof.
  induction 1 as [|x bytes Hx _ IH]; [reflexivity|].
  cbn [map join fold_right]. fold (join (map hex2 bytes)).
  rewrite list_ascii_of_append, forallb_app, IH, andb_true_r.
  unfold hex2. cbn [list_ascii_of_string forallb].
  rewrite !hex_digit_lower; [reflexivity | | ].
  - apply Z.mod_pos_bound. lia.
  - split; [apply Z.div_pos; lia | apply Z.div_lt_upper_bound; lia].
Qed.

Lemma digest_bytes (msg : list Z) :
  Forall (fun x => 0 <= x < 256) (SHA256.digest msg).
Proof.
  unfold SHA256.digest. destruct (fold_left _ _ _) as [a b c d e f g h].
  unfold SHA256.state_bytes, SHA256.word_bytes; cbn [SHA256.sa SHA256.sb SHA256.sc
    SHA256.sd SHA256.se SHA256.sf SHA256.sg SHA256.sh app].
  repeat (constructor; [apply Z.mod_pos_bound; lia|]). constructor.
Qed.

(** X1. Whatever the password, [hashPassword] returns 64 characters, each a
    digit or a letter from a to f in lower case. *)
Theorem hashPassword_lower_hex (p : string) :
  String.length (hashPassword p) = 64%nat
  /\ forallb is_lower_hex (list_ascii_of_string (hashPassword p)) = true.
Proof.
  split; [apply hashPassword_length|].
  unfold hashPassword. apply join_hex_lower, digest_bytes.
Qed.

(* ===================================================================== *)
(** ** Further properties: the upload page                               *)
(* ===================================================================== *)

(** Every way [handleUpload] can go, with the page it leaves. *)
Lemma handleUpload_cases env st b :
  let o := FileUpload.handleUpload env st b in
  let page progress link t :=
    FileUpload.mkState (FileUpload.file st) (FileUpload.password st)
      (FileUpload.expirationMinutes st) false progress link (FileUpload.toasts st ++ [t]) in
  (FileUpload.file st = None
   /\ o = mkOut (FileUpload.mkState None (FileUpload.password st)
                   (FileUpload.expirationMinutes st) (FileUpload.uploading st)
                   (FileUpload.uploadProgress st) (FileUpload.shareLink st)
                   (FileUpload.toasts st ++ [FileUpload.toast_no_file]))
                b [] (inr tt))
  \/ exists f, FileUpload.file st = Some f
     /\ ((exists e, o = mkOut (page 30 (FileUpload.shareLink st) (FileUpload.toast_failed e))
                             b [StorageUpload (storage_key env f) false] (inr tt))
         \/ (exists e, o = mkOut (page 60 (FileUpload.shareLink st) (FileUpload.toast_failed e))
                                 (mkBackend (files b)
                                    (<[storage_key env f := content f]> (objects b)))
                                 [ StorageUpload (storage_key env f) true;
                                   FilesInsert (row_for env st f) false ]
                                 (inr tt))
         \/ (existsb (id_is (FileUpload.randomUUID env)) (files b) = false
             /\ o = mkOut (page 100
                             (FileUpload.origin env +:+ "/download/"
                              +:+ FileUpload.randomUUID env)
                             FileUpload.toast_success)
                          (mkBackend (files b ++ [row_for env st f])
                                     (<[storage_key env f := content f]> (objects b)))
                          [ StorageUpload (storage_key env f) true;
                            FilesInsert (row_for env st f) true ]
                          (inr tt))).
Proof.
  destruct env as [uuid now origin uf inf tz], st as [fl pw ex upl prog link ts].
  cbv zeta. destruct fl as [f|]; [|left; split; reflexivity].
  right. exists f. split; [reflexivity|].
  unfold FileUpload.handleUpload. run_flow.
  unfold storage_upload, storage_key; cbn.
  destruct uf as [e|]; cbn; [left; exists e; reflexivity|].
  destruct (objects b !! _); cbn; [left; exists already_exists; reflexivity|].
  right. unfold files_insert; cbn.
  destruct inf as [e|]; cbn; [left; exists e; reflexivity|].
  destruct (existsb _ _) eqn:E; cbn; [left; exists duplicate_key; reflexivity|].
  right. split; reflexivity.
Qed.

(** X2. With no file selected, [handleUpload] only shows the
    select-a-file toast: it makes no call, leaves the backend, the link,
    the progress bar and the uploading flag as they were. *)
Theorem handleUpload_no_file env st b :
  FileUpload.file st = None ->
  let o := FileUpload.handleUpload env st b in
  calls o = [] /\ backend o = b
  /\ FileUpload.toasts (ui o) = FileUpload.toasts st ++ [FileUpload.toast_no_file]
  /\ FileUpload.shareLink (ui o) = FileUpload.shareLink st
  /\ FileUpload.uploading (ui o) = FileUpload.uploading st
  /\ FileUpload.uploadProgress (ui o) = FileUpload.uploadProgress st.
Proof.
  intros Hf. destruct st as [fl pw ex upl prog link ts]; cbn in Hf; subst fl.
  cbv zeta. unfold FileUpload.handleUpload. run_flow. auto 10.
Qed.

Lemma handleUpload_no_file_witness :
  let o := FileUpload.handleUpload Examples.up_env FileUpload.initial
                                   Examples.empty_backend in
  calls o = [] /\ FileUpload.toasts (ui o) = [FileUpload.toast_no_file].
Proof.
  destruct (handleUpload_no_file Examples.up_env FileUpload.initial
              Examples.empty_backend eq_refl) as (Hc & _ & Ht & _).
  cbv zeta. split; [exact Hc | exact Ht].
Defined.

(** X3. When the storage put fails (upstream error, or the key is already
    taken), [handleUpload] shows the error's message in an Upload Failed
    toast, attempts no insert, changes nothing in the backend, issues no
    link, and resets the uploading flag with the progress left at 30. *)
Theorem handleUpload_storage_failure env st b f e :
  FileUpload.file st = Some f ->
  error (snd (storage_upload (FileUpload.upload_fault env) b
                             (storage_key env f) (content f))) = Some e ->
  let o := FileUpload.handleUpload env st b in
  calls o = [StorageUpload (storage_key env f) false]
  /\ backend o = b
  /\ FileUpload.toasts (ui o) = FileUpload.toasts st ++ [FileUpload.toast_failed e]
  /\ FileUpload.shareLink (ui o) = FileUpload.shareLink st
  /\ FileUpload.uploading (ui o) = false
  /\ FileUpload.uploadProgress (ui o) = 30.
Proof.
  intros Hf He.
  destruct env as [uuid now origin uf inf tz], st as [fl pw ex upl prog link ts].
  cbn in *. subst fl. unfold FileUpload.handleUpload. run_flow.
  unfold storage_upload, storage_key in *; cbn in *.
  destruct uf as [e'|]; cbn in *.
  - injection He as ->. auto 10.
  - destruct (objects b !! _); cbn in *; [|discriminate He].
    injection He as <-. auto 10.
Qed.

Lemma handleUpload_storage_failure_witness :
  let env := FileUpload.mkEnv "7f3c" 2000000 "https://share.example" None None JSDate.utc in
  let o := FileUpload.handleUpload env (Examples.up_state "abc")
                                   (Examples.after_upload "abc") in
  backend o = Examples.after_upload "abc"
  /\ FileUpload.toasts (ui o) = [FileUpload.toast_failed already_exists].
Proof.
  destruct (handleUpload_storage_failure
              (FileUpload.mkEnv "7f3c" 2000000 "https://share.example" None None JSDate.utc)
              (Examples.up_state "abc") (Examples.after_upload "abc")
              Examples.report already_exists) as (_ & Hb & Ht & _).
  - reflexivity.
  - vm_compute. reflexivity.
  - cbv zeta. split; [exact Hb | exact Ht].
Defined.

(** X4. When the object was stored and the insert then fails (upstream
    error, or the id is already a primary key), nothing is rolled back: the
    object stays in the bucket with no row pointing at it, the table is
    unchanged, no link is issued and the failure is shown. *)
Theorem handleUpload_insert_failure_leaves_object env st b f e :
  FileUpload.file st = Some f ->
  FileUpload.upload_fault env = None ->
  objects b !! storage_key env f = None ->
  error (snd (files_insert (FileUpload.insert_fault env) b (row_for env st f))) = Some e ->
  let o := FileUpload.handleUpload env st b in
  calls o = [ StorageUpload (storage_key env f) true;
              FilesInsert (row_for env st f) false ]
  /\ objects (backend o) = <[storage_key env f := content f]> (objects b)
  /\ objects (backend o) !! storage_key env f = Some (content f)
  /\ files (backend o) = files b
  /\ FileUpload.toasts (ui o) = FileUpload.toasts st ++ [FileUpload.toast_failed e]
  /\ FileUpload.shareLink (ui o) = FileUpload.shareLink st
  /\ FileUpload.uploading (ui o) = false.
Proof.
  intros Hf Hup Hobj He.
  destruct env as [uuid now origin uf inf tz], st as [fl pw ex upl prog link ts].
  cbn in *. subst fl uf. unfold FileUpload.handleUpload. run_flow.
  unfold storage_upload, storage_key in *; cbn in *. rewrite Hobj; cbn.
  unfold files_insert in *; cbn in *.
  destruct inf as [e'|]; cbn in *.
  - injection He as ->. repeat split. apply lookup_insert_eq.
  - destruct (existsb _ _); cbn in *; [|discriminate He].
    injection He as <-. repeat split. apply lookup_insert_eq.
Qed.

Lemma handleUpload_insert_failure_leaves_object_witness :
  let env := FileUpload.mkEnv "7f3c" 1000000 "https://share.example" None
                              (Some Examples.storage_down) JSDate.utc in
  let o := FileUpload.handleUpload env (Examples.up_state "abc") Examples.empty_backend in
  objects (backend o) !! "uploads/7f3c/report.pdf" = Some (content Examples.report)
  /\ files (backend o) = []
  /\ FileUpload.shareLink (ui o) = "".
Proof.
  destruct (handleUpload_insert_failure_leaves_object
              (FileUpload.mkEnv "7f3c" 1000000 "https://share.example" None
                                (Some Examples.storage_down) JSDate.utc)
              (Examples.up_state "abc") Examples.empty_backend
              Examples.report Examples.storage_down)
    as (_ & _ & Ho & Hf & _ & Hl & _).
  - reflexivity.
  - reflexivity.
  - reflexivity.
  - reflexivity.
  - cbv zeta. split; [exact Ho | split; [exact Hf | exact Hl]].
Defined.

(** X5. [handleUpload] issues a link exactly when both writes went through:
    either the link and the table are as before and the last toast is not
    the success toast, or the link is [<origin>/download/<id>], the row is in
    the table, the bytes are in the bucket under the row's path and the
    success toast is shown. *)
Theorem handleUpload_link_iff_stored env st b :
  let o := FileUpload.handleUpload env st b in
  (FileUpload.shareLink (ui o) = FileUpload.shareLink st
   /\ files (backend o) = files b
   /\ exists t, FileUpload.toasts (ui o) = FileUpload.toasts st ++ [t]
                /\ t <> FileUpload.toast_success)
  \/ (exists f, FileUpload.file st = Some f
        /\ FileUpload.shareLink (ui o)
           = FileUpload.origin env +:+ "/download/" +:+ FileUpload.randomUUID env
        /\ files (backend o) = files b ++ [row_for env st f]
        /\ objects (backend o) !! file_path (row_for env st f) = Some (content f)
        /\ FileUpload.toasts (ui o) = FileUpload.toasts st ++ [FileUpload.toast_success]).
Proof.
  cbv zeta.
  destruct (handleUpload_cases env st b)
    as [(_ & ->) | (f & Hf & [(e & ->) | [(e & ->) | (_ & ->)]])]; cbn.
  - left. repeat split. eexists; split; [reflexivity | discriminate].
  - left. repeat split. eexists; split; [reflexivity | discriminate].
  - left. repeat split. eexists; split; [reflexivity | discriminate].
  - right. exists f. repeat split; [assumption|]. apply lookup_insert_eq.
Qed.



(** In the hour that is repeated when clocks go back, the proviso fails:
    the row of a five-minute upload expires 55 minutes before the upload,
    and the link, opened at once, is answered as expired. *)
Example upload_in_repeated_hour :
  let up := FileUpload.handleUpload Examples.late_env Examples.late_state
                                    Examples.empty_backend in
  let down := FileDownload.loadFileData "7f3c" (Examples.load_env 1730615400000)
                                        FileDownload.initial (backend up) in
  map expires_at (files (backend up)) = [1730615400000 - 55 * 60000]
  /\ FileUpload.shareLink (ui up) = "https://share.example/download/7f3c"
  /\ FileDownload.error (ui down) = "File has expired and been deleted"
  /\ files (backend down) = [].
Proof. vm_compute. repeat split. Qed.

Lemma append_nil_l (s : string) : "" +:+ s = s.
Proof. reflexivity. Qed.

Lemma append_cons (c : ascii) (a s : string) : String c a +:+ s = String c (a +:+ s).
Proof. reflexivity. Qed.

Lemma slash_splits (a b x y : string) :
  no_slash a = true -> no_slash b = true ->
  a +:+ "/" +:+ x = b +:+ "/" +:+ y -> a = b /\ x = y.
Proof.
  revert b. induction a as [|c a IH]; intros [|d b] Ha Hb E;
    rewrite ?append_nil_l, ?append_cons in E.
  - injection E as E. auto.
  - injection E as <- _. unfold no_slash in Hb. cbn in Hb. discriminate Hb.
  - injection E as -> _. unfold no_slash in Ha. cbn in Ha. discriminate Ha.
  - injection E as -> E. unfold no_slash in *. cbn in Ha, Hb.
    apply andb_true_iff in Ha as [_ Ha]. apply andb_true_iff in Hb as [_ Hb].
    destruct (IH b Ha Hb E) as [-> ->]. auto.
Qed.

(** X7. Storage keys do not collide: for identifiers that contain no
    slash (as UUIDs do), two uploads get the same key only if they have the
    same identifier and the same file name. *)
Theorem storage_key_injective env1 env2 f1 f2 :
  no_slash (FileUpload.randomUUID env1) = true ->
  no_slash (FileUpload.randomUUID env2) = true ->
  storage_key env1 f1 = storage_key env2 f2 ->
  FileUpload.randomUUID env1 = FileUpload.randomUUID env2 /\ name f1 = name f2.
Proof.
  intros H1 H2 E. unfold storage_key in E.
  rewrite !append_cons, !append_nil_l in E.
  injection E as E. now apply slash_splits.
Qed.

Lemma storage_key_injective_witness :
  FileUpload.randomUUID Examples.up_env = FileUpload.randomUUID Examples.up_env
  /\ name Examples.report = name Examples.report.
Proof.
  apply (storage_key_injective Examples.up_env Examples.up_env
           Examples.report Examples.report); reflexivity.
Defined.

(** Without that proviso two different uploads can share a key. *)
Example storage_key_collision_with_slash :
  storage_key (FileUpload.mkEnv "a" 0 "" None None JSDate.utc) (mkFile "b/c" [])
  = storage_key (FileUpload.mkEnv "a/b" 0 "" None None JSDate.utc) (mkFile "c" []).
Proof. reflexivity. Qed.

(* ===================================================================== *)
(** ** Further properties: the download page                             *)
(* ===================================================================== *)

(** Every way [loadFileData] can go. *)
Lemma loadFileData_cases fileId env st b :
  let o := FileDownload.loadFileData fileId env st b in
  (exists e, error (snd (files_select_single (FileDownload.select_fault env) b fileId))
             = Some e
             /\ o = mkOut (FileDownload.mkState (FileDownload.fileData st)
                             (FileDownload.password st) false (FileDownload.downloading st)
                             (message e) (FileDownload.toasts st) (FileDownload.saved st))
                          b [FilesSelectSingle fileId false] (inr tt))
  \/ (exists row, List.filter (id_is fileId) (files b) = [row]
        /\ FileDownload.select_fault env = None
        /\ ((FileDownload.now env <= expires_at row
             /\ o = mkOut (FileDownload.mkState (Some row) (FileDownload.password st) false
                             (FileDownload.downloading st) (FileDownload.error st)
                             (FileDownload.toasts st) (FileDownload.saved st))
                          b [FilesSelectSingle fileId true] (inr tt))
            \/ (expires_at row < FileDownload.now env
                /\ o = mkOut (FileDownload.mkState (FileDownload.fileData st)
                                (FileDownload.password st) false
                                (FileDownload.downloading st)
                                "File has expired and been deleted"
                                (FileDownload.toasts st) (FileDownload.saved st))
                             (mkBackend
                                (if is_none (FileDownload.delete_fault env)
                                 then List.filter (fun r => negb (id_is fileId r)) (files b)
                                 else files b)
                                (if is_none (FileDownload.remove_fault env)
                                 then delete (file_path row) (objects b)
                                 else objects b))
                             [ FilesSelectSingle fileId true;
                               StorageRemove [file_path row]
                                 (is_none (FileDownload.remove_fault env));
                               FilesDeleteEq fileId
                                 (is_none (FileDownload.delete_fault env)) ]
                             (inr tt)))).
Proof.
  cbv zeta. destruct env as [now sf rf df]; cbn [FileDownload.select_fault
    FileDownload.now FileDownload.remove_fault FileDownload.delete_fault].
  unfold FileDownload.loadFileData. run_flow. unfold files_select_single.
  destruct sf as [e|]; cbn.
  { left. exists e. auto. }
  destruct (List.filter (id_is fileId) (files b)) as [|row [|row' rows]] eqn:E; cbn.
  - left. exists no_single_row. auto.
  - right. exists row. split; [reflexivity|]. split; [reflexivity|].
    destruct (Z.ltb_spec (expires_at row) now).
    + right. split; [assumption|]. destruct b as [fs os]. destruct rf, df; reflexivity.
    + left. auto.
  - left. exists no_single_row. auto.
Qed.

(** X8. The download page only ever shows a record that is in the table
    and is not past its expiry: if [loadFileData], started with no record
    loaded, puts a row on the page, that row is the one row with the
    requested id, the current time is at most its [expires_at], nothing was
    deleted, no error is set and the page is no longer loading. *)
Theorem loadFileData_shows_only_live_rows fileId env st b row :
  FileDownload.fileData st = None ->
  FileDownload.fileData (ui (FileDownload.loadFileData fileId env st b)) = Some row ->
  let o := FileDownload.loadFileData fileId env st b in
  List.filter (id_is fileId) (files b) = [row]
  /\ id row = fileId
  /\ FileDownload.now env <= expires_at row
  /\ backend o = b
  /\ FileDownload.error (ui o) = FileDownload.error st
  /\ FileDownload.loading (ui o) = false.
Proof.
  intros Hnone Hshown. cbv zeta.
  destruct (loadFileData_cases fileId env st b)
    as [(e & _ & E) | (r & Hr & _ & [(Hle & E) | (_ & E)])];
    rewrite E in *; cbn in *.
  - congruence.
  - injection Hshown as ->. repeat split; try assumption.
    assert (Hin : In row (List.filter (id_is fileId) (files b))) by (rewrite Hr; now left).
    apply List.filter_In in Hin as [_ Hid]. now apply String.eqb_eq in Hid.
  - congruence.
Qed.

Lemma loadFileData_shows_only_live_rows_witness :
  let o := FileDownload.loadFileData "7f3c" (Examples.load_env 1000001)
             FileDownload.initial (Examples.after_upload "abc") in
  backend o = Examples.after_upload "abc" /\ FileDownload.loading (ui o) = false.
Proof.
  destruct (loadFileData_shows_only_live_rows "7f3c" (Examples.load_env 1000001)
              FileDownload.initial (Examples.after_upload "abc")
              (mkFileData "7f3c" "report.pdf" "uploads/7f3c/report.pdf" 10
                          (Some (hashPassword "abc")) 1060000))
    as (_ & _ & _ & Hb & _ & Hl).
  - reflexivity.
  - vm_compute. reflexivity.
  - cbv zeta. split; [exact Hb | exact Hl].
Defined.

(** X9. When the lookup resolves with an error (upstream failure, no row,
    or several rows), [loadFileData] shows that error's message, loads no
    record, makes no other call and leaves the backend alone; the page
    stops loading, and shows the error card whenever the message is not
    empty. *)
Theorem loadFileData_lookup_error fileId env st b e :
  error (snd (files_select_single (FileDownload.select_fault env) b fileId)) = Some e ->
  let o := FileDownload.loadFileData fileId env st b in
  FileDownload.error (ui o) = message e
  /\ FileDownload.fileData (ui o) = FileDownload.fileData st
  /\ FileDownload.loading (ui o) = false
  /\ backend o = b
  /\ calls o = [FilesSelectSingle fileId false]
  /\ (message e <> "" -> FileDownload.render (ui o) = FileDownload.ErrorCard (message e)).
Proof.
  intros He. cbv zeta.
  destruct (loadFileData_cases fileId env st b)
    as [(e' & He' & E) | (r & Hr & Hsf & _)].
  - rewrite He in He'. injection He' as <-. rewrite E. cbn.
    repeat split. intros Hm. apply truthy_true_iff in Hm.
    unfold FileDownload.render; cbn. now rewrite Hm.
  - unfold files_select_single in He. rewrite Hsf, Hr in He. discriminate He.
Qed.

Lemma loadFileData_lookup_error_witness :
  let o := FileDownload.loadFileData "7f3c"
             (FileDownload.mkLoadEnv 1000001 (Some Examples.storage_down) None None)
             FileDownload.initial (Examples.after_upload "abc") in
  FileDownload.render (ui o) = FileDownload.ErrorCard "storage unavailable".
Proof.
  destruct (loadFileData_lookup_error "7f3c"
              (FileDownload.mkLoadEnv 1000001 (Some Examples.storage_down) None None)
              FileDownload.initial (Examples.after_upload "abc") Examples.storage_down)
    as (_ & _ & _ & _ & _ & Hr).
  - reflexivity.
  - cbv zeta. apply Hr. discriminate.
Defined.

(** X10. On an expired record the page says the file has been deleted
    whether or not the deletions went through: a storage removal that fails
    leaves the bucket as it was, a row deletion that fails leaves the table
    as it was, and the error card is the same. *)
Theorem loadFileData_expired_ignores_deletion_failures fileId env st b row :
  List.filter (id_is fileId) (files b) = [row] ->
  FileDownload.select_fault env = None ->
  expires_at row < FileDownload.now env ->
  let o := FileDownload.loadFileData fileId env st b in
  FileDownload.render (ui o) = FileDownload.ErrorCard "File has expired and been deleted"
  /\ (FileDownload.remove_fault env <> None -> objects (backend o) = objects b)
  /\ (FileDownload.delete_fault env <> None -> files (backend o) = files b)
  /\ (FileDownload.remove_fault env <> None -> FileDownload.delete_fault env <> None ->
      backend o = b).
Proof.
  intros Hrow Hsel Hexp. cbv zeta.
  destruct (loadFileData_cases fileId env st b)
    as [(e & He & _) | (r & Hr & _ & [(Hle & _) | (_ & E)])].
  - unfold files_select_single in He. rewrite Hsel, Hrow in He. discriminate He.
  - rewrite Hrow in Hr. injection Hr as <-. lia.
  - rewrite E. cbn. split; [reflexivity|].
    destruct (FileDownload.remove_fault env), (FileDownload.delete_fault env); cbn;
      repeat split; try congruence.
    intros _ _. now destruct b.
Qed.

Lemma loadFileData_expired_ignores_deletion_failures_witness :
  let env := FileDownload.mkLoadEnv 1060001 None (Some Examples.storage_down)
                                    (Some Examples.storage_down) in
  let o := FileDownload.loadFileData "7f3c" env FileDownload.initial
                                     (Examples.after_upload "abc") in
  FileDownload.render (ui o) = FileDownload.ErrorCard "File has expired and been deleted"
  /\ backend o = Examples.after_upload "abc".
Proof.
  destruct (loadFileData_expired_ignores_deletion_failures "7f3c"
              (FileDownload.mkLoadEnv 1060001 None (Some Examples.storage_down)
                                      (Some Examples.storage_down))
              FileDownload.initial (Examples.after_upload "abc")
              (mkFileData "7f3c" "report.pdf" "uploads/7f3c/report.pdf" 10
                          (Some (hashPassword "abc")) 1060000))
    as (Hr & _ & _ & Hb).
  - vm_compute. reflexivity.
  - reflexivity.
  - cbn. lia.
  - cbv zeta. split; [exact Hr | apply Hb; discriminate].
Defined.

(** X11. [loadFileData] never adds anything and never touches another
    file: every row with a different id stays, every row after the call was
    there before, and every object stays except possibly the one under the
    looked-up row's path. *)
Theorem loadFileData_touches_only_its_file fileId env st b :
  let o := FileDownload.loadFileData fileId env st b in
  (forall r, In r (files (backend o)) -> In r (files b))
  /\ (forall r, In r (files b) -> id r <> fileId -> In r (files (backend o)))
  /\ (forall k bytes, objects (backend o) !! k = Some bytes -> objects b !! k = Some bytes)
  /\ (forall k, (forall row, List.filter (id_is fileId) (files b) = [row] ->
                             k <> file_path row) ->
                objects (backend o) !! k = objects b !! k).
Proof.
  cbv zeta.
  destruct (loadFileData_cases fileId env st b)
    as [(e & _ & E) | (row & Hr & _ & [(_ & E) | (_ & E)])]; rewrite E; clear E; cbn;
    try (repeat split; auto; fail).
  split; [|split; [|split]].
  - intros r. destruct (is_none _); [|easy]. now intros [H _]%List.filter_In.
  - intros r Hin Hid. destruct (is_none _); [|easy].
    apply List.filter_In. split; [easy|].
    apply negb_true_iff. unfold id_is. now apply String.eqb_neq.
  - intros k bytes. destruct (is_none _); [|easy].
    intros H. apply lookup_delete_Some in H. tauto.
  - intros k Hk. destruct (is_none _); [|easy].
    apply lookup_delete_ne. intros <-. now apply (Hk row).
Qed.

(** The two ways the fetch can go. *)
Lemma fetch_and_save_cases fault fd st b :
  let o := FileDownload.fetch_and_save fault fd st b in
  (exists bytes, fault = None /\ objects b !! file_path fd = Some bytes
     /\ o = mkOut (FileDownload.mkState (FileDownload.fileData st)
                     (FileDownload.password st) (FileDownload.loading st) false
                     (FileDownload.error st)
                     (FileDownload.toasts st ++ [FileDownload.toast_success])
                     (FileDownload.saved st ++ [(filename fd, bytes)]))
                  b [StorageDownload (file_path fd) true] (inr tt))
  \/ (exists e, error (snd (storage_download fault b (file_path fd))) = Some e
        /\ o = mkOut (FileDownload.mkState (FileDownload.fileData st)
                        (FileDownload.password st) (FileDownload.loading st) false
                        (FileDownload.error st)
                        (FileDownload.toasts st ++ [FileDownload.toast_failed e])
                        (FileDownload.saved st))
                     b [StorageDownload (file_path fd) false] (inr tt)).
Proof.
  cbv zeta. unfold FileDownload.fetch_and_save. run_flow. unfold storage_download.
  destruct fault as [e|]; cbn.
  - right. exists e. auto.
  - destruct (objects b !! file_path fd) as [bytes|]; cbn.
    + left. exists bytes. auto.
    + right. exists object_not_found. auto.
Qed.

(** Every way [handleDownload] can go. *)
Lemma handleDownload_cases fault st b :
  let o := FileDownload.handleDownload fault st b in
  (FileDownload.fileData st = None /\ o = mkOut st b [] (inr tt))
  \/ exists fd, FileDownload.fileData st = Some fd
     /\ ((truthy_opt (password_hash fd) = true /\ FileDownload.password st = ""
          /\ o = mkOut (FileDownload.mkState (FileDownload.fileData st)
                          (FileDownload.password st) (FileDownload.loading st)
                          (FileDownload.downloading st) (FileDownload.error st)
                          (FileDownload.toasts st ++ [FileDownload.toast_password_required])
                          (FileDownload.saved st))
                       b [] (inr tt))
         \/ (truthy_opt (password_hash fd) = true /\ FileDownload.password st <> ""
             /\ password_hash fd <> Some (hashPassword (FileDownload.password st))
             /\ o = mkOut (FileDownload.mkState (FileDownload.fileData st)
                             (FileDownload.password st) (FileDownload.loading st)
                             (FileDownload.downloading st) (FileDownload.error st)
                             (FileDownload.toasts st ++ [FileDownload.toast_incorrect_password])
                             (FileDownload.saved st))
                          b [] (inr tt))
         \/ ((truthy_opt (password_hash fd) = false
              \/ (FileDownload.password st <> ""
                  /\ password_hash fd = Some (hashPassword (FileDownload.password st))))
             /\ o = FileDownload.fetch_and_save fault fd st b)).
Proof.
  cbv zeta. unfold FileDownload.handleDownload, bind, get.
  destruct (FileDownload.fileData st) as [fd|] eqn:Hfd; [|left; auto].
  right. exists fd. split; [reflexivity|].
  destruct (truthy_opt (password_hash fd)) eqn:Hgate.
  - destruct (truthy (FileDownload.password st)) eqn:Hpw; cbn [negb].
    + apply truthy_true_iff in Hpw.
      destruct (strict_ne _ _) eqn:Hne.
      * right. left. split; [reflexivity|]. split; [assumption|]. split.
        -- intros Heq. rewrite Heq, strict_ne_same in Hne. discriminate Hne.
        -- cbn. now rewrite Hfd.
      * right. right. split.
        -- right. split; [assumption|].
           destruct (password_hash fd) as [h|]; [|discriminate Hne].
           cbn in Hne. apply negb_false_iff, String.eqb_eq in Hne. now subst h.
        -- now destruct (FileDownload.fetch_and_save fault fd st b).
    + apply truthy_false_iff in Hpw. left. split; [reflexivity|]. split; [assumption|].
      cbn. now rewrite Hfd.
  - right. right. split; [now left|].
    now destruct (FileDownload.fetch_and_save fault fd st b).
Qed.

Lemma handleDownload_backend fault st b :
  backend (FileDownload.handleDownload fault st b) = b.
Proof.
  destruct (handleDownload_cases fault st b)
    as [(_ & ->) | (fd & Hfd & [(_ & _ & ->) | [(_ & _ & _ & ->) | (_ & ->)]])];
    [reflexivity | reflexivity | reflexivity |].
  destruct (fetch_and_save_cases fault fd st b) as [(bytes & _ & _ & ->) | (e & _ & ->)];
    reflexivity.
Qed.

(** X12. [handleDownload] only reads: in every case the backend is left as
    it was, the loaded record, the typed password and the page error are
    kept, no exception escapes, and the only call it can make is one storage
    download of the loaded record's path. *)
Theorem handleDownload_read_only fault st b :
  let o := FileDownload.handleDownload fault st b in
  backend o = b
  /\ result o = inr tt
  /\ FileDownload.fileData (ui o) = FileDownload.fileData st
  /\ FileDownload.password (ui o) = FileDownload.password st
  /\ FileDownload.error (ui o) = FileDownload.error st
  /\ (calls o = []
      \/ exists fd succ, FileDownload.fileData st = Some fd
                         /\ calls o = [StorageDownload (file_path fd) succ]).
Proof.
  cbv zeta.
  destruct (handleDownload_cases fault st b)
    as [(_ & ->) | (fd & Hfd & [(_ & _ & ->) | [(_ & _ & _ & ->) | (_ & ->)]])];
    [cbn; auto 10 | cbn; auto 10 | cbn; auto 10 |].
  destruct (fetch_and_save_cases fault fd st b) as [(bytes & _ & _ & ->) | (e & _ & ->)];
    cbn; repeat split; right; eauto.
Qed.

(** X13. Bytes are handed to the browser only past the gate: if
    [handleDownload] saves anything, a record is loaded, it either has no
    password hash or its hash is the SHA-256 hex digest of the non-empty
    typed password, and what is saved is exactly the object stored under
    the record's path, named by the record's filename. *)
Theorem handleDownload_saves_only_past_gate fault st b :
  FileDownload.saved (ui (FileDownload.handleDownload fault st b))
  <> FileDownload.saved st ->
  exists fd bytes,
    FileDownload.fileData st = Some fd
    /\ objects b !! file_path fd = Some bytes
    /\ FileDownload.saved (ui (FileDownload.handleDownload fault st b))
       = FileDownload.saved st ++ [(filename fd, bytes)]
    /\ (truthy_opt (password_hash fd) = false
        \/ (FileDownload.password st <> ""
            /\ password_hash fd = Some (hashPassword (FileDownload.password st)))).
Proof.
  intros Hsaved.
  destruct (handleDownload_cases fault st b)
    as [(_ & E) | (fd & Hfd & [(_ & _ & E) | [(_ & _ & _ & E) | (Hgate & E)]])];
    rewrite E in *; clear E;
    [cbn in Hsaved; congruence | cbn in Hsaved; congruence | cbn in Hsaved; congruence |].
  destruct (fetch_and_save_cases fault fd st b) as [(bytes & _ & Hobj & E') | (e & _ & E')];
    rewrite E' in *; clear E'; cbn in Hsaved; [|congruence].
  exists fd, bytes. cbn. auto.
Qed.

Lemma handleDownload_saves_only_past_gate_witness :
  exists fd bytes,
    objects (Examples.after_upload "abc") !! file_path fd = Some bytes
    /\ password_hash fd = Some (hashPassword "abc").
Proof.
  destruct (handleDownload_saves_only_past_gate None
              (FileDownload.mkState
                 (Some (row_for Examples.up_env (Examples.up_state "abc") Examples.report))
                 "abc" false false "" [] [])
              (Examples.after_upload "abc"))
    as (fd & bytes & Hfd & Hobj & _ & Hgate).
  - vm_compute. discriminate.
  - exists fd, bytes. split; [exact Hobj|].
    cbn in Hfd. injection Hfd as <-. reflexivity.
Defined.

(** X14. Past the gate, when the storage download resolves with an error
    (upstream failure, or the object is gone, for instance swept since the
    page was loaded), [handleDownload] shows the error's message in a
    Download Failed toast, saves nothing and resets the downloading flag. *)
Theorem handleDownload_fetch_failure fault st b fd e :
  FileDownload.fileData st = Some fd ->
  (truthy_opt (password_hash fd) = false
   \/ (FileDownload.password st <> ""
       /\ password_hash fd = Some (hashPassword (FileDownload.password st)))) ->
  error (snd (storage_download fault b (file_path fd))) = Some e ->
  let o := FileDownload.handleDownload fault st b in
  FileDownload.toasts (ui o) = FileDownload.toasts st ++ [FileDownload.toast_failed e]
  /\ FileDownload.saved (ui o) = FileDownload.saved st
  /\ FileDownload.downloading (ui o) = false
  /\ calls o = [StorageDownload (file_path fd) false].
Proof.
  intros Hfd Hgate He. cbv zeta.
  assert (E : FileDownload.handleDownload fault st b
              = FileDownload.fetch_and_save fault fd st b).
  { destruct Hgate as [Hnull | [Hpw Hhash]].
    - now apply handleDownload_ungated.
    - apply handleDownload_match; [assumption | now apply truthy_true_iff | assumption]. }
  rewrite E.
  destruct (fetch_and_save_cases fault fd st b)
    as [(bytes & -> & Hobj & _) | (e' & He' & ->)].
  - unfold storage_download in He. rewrite Hobj in He. discriminate He.
  - rewrite He in He'. injection He' as <-. cbn. auto.
Qed.

Lemma handleDownload_fetch_failure_witness :
  let fd := row_for Examples.up_env (Examples.up_state "") Examples.report in
  let o := FileDownload.handleDownload None
             (FileDownload.mkState (Some fd) "" false false "" [] [])
             Examples.empty_backend in
  FileDownload.toasts (ui o) = [FileDownload.toast_failed object_not_found]
  /\ FileDownload.saved (ui o) = [].
Proof.
  destruct (handleDownload_fetch_failure None
              (FileDownload.mkState
                 (Some (row_for Examples.up_env (Examples.up_state "") Examples.report))
                 "" false false "" [] [])
              Examples.empty_backend
              (row_for Examples.up_env (Examples.up_state "") Examples.report)
              object_not_found) as (Ht & Hs & _).
  - reflexivity.
  - left. reflexivity.
  - reflexivity.
  - cbv zeta. split; [exact Ht | exact Hs].
Defined.

(** X15. While the record has not expired ([now <= expires_at]),
    [getTimeRemaining] shows [<m>m <s>s] with [m >= 0], [0 <= s <= 59], and
    [m] minutes [s] seconds is the remaining time rounded down to a second. *)
Theorem getTimeRemaining_before_expiry now st fd :
  FileDownload.fileData st = Some fd ->
  now <= expires_at fd ->
  let diff := expires_at fd - now in
  let m := FileDownload.minutes diff in
  let s := FileDownload.seconds diff in
  FileDownload.getTimeRemaining now st = pretty m +:+ "m " +:+ pretty s +:+ "s"
  /\ 0 <= m /\ 0 <= s <= 59
  /\ 60000 * m + 1000 * s <= diff < 60000 * m + 1000 * s + 1000.
Proof.
  intros Hfd Hle. cbv zeta. unfold FileDownload.getTimeRemaining. rewrite Hfd.
  split; [reflexivity|].
  unfold FileDownload.minutes, FileDownload.seconds.
  rewrite Z.rem_mod_nonneg by lia.
  Z.to_euclidean_division_equations. lia.
Qed.

Lemma getTimeRemaining_before_expiry_witness :
  FileDownload.getTimeRemaining 1000001
    (FileDownload.mkState
       (Some (row_for Examples.up_env (Examples.up_state "") Examples.report))
       "" false false "" [] [])
  = "0m 59s".
Proof.
  destruct (getTimeRemaining_before_expiry 1000001
              (FileDownload.mkState
                 (Some (row_for Examples.up_env (Examples.up_state "") Examples.report))
                 "" false false "" [] [])
              (row_for Examples.up_env (Examples.up_state "") Examples.report))
    as (H & _).
  - reflexivity.
  - apply Z.leb_le. vm_compute. reflexivity.
  - rewrite H. vm_compute. reflexivity.
Defined.

(** X16. On a page left open past the expiry ([expires_at < now]) the
    minutes shown are negative and the seconds are between -60 and 0; unless
    the overshoot is a whole number of minutes, the two together are a full
    minute further from zero than the time actually elapsed. *)
Theorem getTimeRemaining_after_expiry now st fd :
  FileDownload.fileData st = Some fd ->
  expires_at fd < now ->
  let diff := expires_at fd - now in
  let m := FileDownload.minutes diff in
  let s := FileDownload.seconds diff in
  FileDownload.getTimeRemaining now st = pretty m +:+ "m " +:+ pretty s +:+ "s"
  /\ m <= -1 /\ -60 <= s <= 0
  /\ (Z.rem diff 60000 <> 0 ->
      diff - 61000 < 60000 * m + 1000 * s <= diff - 60000).
Proof.
  intros Hfd Hlt. cbv zeta. unfold FileDownload.getTimeRemaining. rewrite Hfd.
  split; [reflexivity|].
  unfold FileDownload.minutes, FileDownload.seconds.
  Z.to_euclidean_division_equations. lia.
Qed.

Lemma getTimeRemaining_after_expiry_witness :
  FileDownload.getTimeRemaining 1060001
    (FileDownload.mkState
       (Some (row_for Examples.up_env (Examples.up_state "") Examples.report))
       "" false false "" [] [])
  = "-1m -1s".
Proof.
  destruct (getTimeRemaining_after_expiry 1060001
              (FileDownload.mkState
                 (Some (row_for Examples.up_env (Examples.up_state "") Examples.report))
                 "" false false "" [] [])
              (row_for Examples.up_env (Examples.up_state "") Examples.report))
    as (H & _).
  - reflexivity.
  - apply Z.ltb_lt. vm_compute. reflexivity.
  - rewrite H. vm_compute. reflexivity.
Defined.

(* ===================================================================== *)
(** ** Further properties: the sweep                                     *)
(* ===================================================================== *)

(** Every way a sweep can go. *)
Lemma sweep_cases env log b :
  let expired := expired_at (ExpirySweep.select_now env) b in
  let o := ExpirySweep.sweep env log b in
  (exists e, ExpirySweep.select_fault env = Some e
     /\ o = mkOut log b [FilesSelectLt (ExpirySweep.select_now env) false]
                  (inr (http_error e)))
  \/ (ExpirySweep.select_fault env = None /\ expired = []
      /\ o = mkOut log b [FilesSelectLt (ExpirySweep.select_now env) true]
                   (inr ExpirySweep.no_expired))
  \/ (ExpirySweep.select_fault env = None /\ expired <> []
      /\ ui o = match ExpirySweep.remove_fault env with
                | Some storageError => log ++ [storageError]
                | None => log
                end
      /\ objects (backend o)
         = match ExpirySweep.remove_fault env with
           | Some _ => objects b
           | None => foldr delete (objects b) (map file_path expired)
           end
      /\ ((ExpirySweep.delete_fault env = None
           /\ files (backend o)
              = List.filter (fun r => negb (expires_before (ExpirySweep.delete_now env) r))
                            (files b)
           /\ result o = inr (ExpirySweep.deleted (length expired))
           /\ calls o = [ FilesSelectLt (ExpirySweep.select_now env) true;
                          StorageRemove (map file_path expired)
                            (is_none (ExpirySweep.remove_fault env));
                          FilesDeleteLt (ExpirySweep.delete_now env) true ])
          \/ (exists e, ExpirySweep.delete_fault env = Some e
                /\ files (backend o) = files b
                /\ result o = inr (http_error e)
                /\ calls o = [ FilesSelectLt (ExpirySweep.select_now env) true;
                               StorageRemove (map file_path expired)
                                 (is_none (ExpirySweep.remove_fault env));
                               FilesDeleteLt (ExpirySweep.delete_now env) false ]))).
Proof.
  cbv zeta. destruct env as [t1 t2 sf rf df].
  cbn [ExpirySweep.select_now ExpirySweep.delete_now ExpirySweep.select_fault
       ExpirySweep.remove_fault ExpirySweep.delete_fault].
  destruct sf as [e|].
  { left. exists e. split; [reflexivity|].
    unfold ExpirySweep.sweep, ExpirySweep.handler. run_flow. reflexivity. }
  right.
  destruct (expired_at t1 b) as [|r rs] eqn:E.
  { left. split; [reflexivity|]. split; [reflexivity|].
    now apply (sweep_nothing_expired (ExpirySweep.mkEnv t1 t2 None rf df)). }
  right. split; [reflexivity|]. split; [discriminate|].
  unfold ExpirySweep.sweep, ExpirySweep.handler. run_flow.
  unfold expired_at in E. rewrite E. cbn.
  destruct rf as [er|], df as [e|]; cbn; repeat split;
    try (left; repeat split; fail); right; exists e; repeat split.
Qed.

(** X17. When the first query of the sweep fails, the handler answers 400
    with the error's message; it issues no storage removal and no delete,
    logs nothing and leaves the backend as it was. *)
Theorem sweep_select_failure env log b e :
  ExpirySweep.select_fault env = Some e ->
  let o := ExpirySweep.sweep env log b in
  result o = inr (ExpirySweep.mkHttpResponse (ExpirySweep.BodyError (message e)) 400)
  /\ calls o = [FilesSelectLt (ExpirySweep.select_now env) false]
  /\ backend o = b
  /\ ui o = log.
Proof.
  intros He. cbv zeta.
  destruct (sweep_cases env log b) as [(e' & He' & ->) | [(Hn & _) | (Hn & _)]];
    try congruence.
  rewrite He in He'. injection He' as <-. auto.
Qed.

Lemma sweep_select_failure_witness :
  let env := ExpirySweep.mkEnv 150 150 (Some Examples.storage_down) None None in
  let o := ExpirySweep.sweep env [] Examples.three_rows in
  backend o = Examples.three_rows /\ calls o = [FilesSelectLt 150 false].
Proof.
  destruct (sweep_select_failure
              (ExpirySweep.mkEnv 150 150 (Some Examples.storage_down) None None)
              [] Examples.three_rows Examples.storage_down eq_refl)
    as (_ & Hc & Hb & _).
  cbv zeta. split; [exact Hb | exact Hc].
Defined.

(** X18. When the objects were removed and the row deletion then fails, the
    handler answers 400 and the expired rows stay in the table, now pointing
    at missing objects. A later sweep whose calls are all answered repairs
    this: removing the absent objects again is not an error, and no row that
    was expired at the first sweep remains. *)
Theorem sweep_retry_after_delete_failure env1 env2 log b e :
  ExpirySweep.select_fault env1 = None ->
  ExpirySweep.remove_fault env1 = None ->
  ExpirySweep.delete_fault env1 = Some e ->
  expired_at (ExpirySweep.select_now env1) b <> [] ->
  ExpirySweep.select_fault env2 = None ->
  ExpirySweep.remove_fault env2 = None ->
  ExpirySweep.delete_fault env2 = None ->
  ExpirySweep.select_now env1 <= ExpirySweep.select_now env2 ->
  ExpirySweep.select_now env2 <= ExpirySweep.delete_now env2 ->
  let o1 := ExpirySweep.sweep env1 log b in
  let o2 := ExpirySweep.sweep env2 (ui o1) (backend o1) in
  result o1 = inr (ExpirySweep.mkHttpResponse (ExpirySweep.BodyError (message e)) 400)
  /\ files (backend o1) = files b
  /\ (forall r, In r (expired_at (ExpirySweep.select_now env1) b) ->
                objects (backend o1) !! file_path r = None)
  /\ result o2
     = inr (ExpirySweep.mkHttpResponse
              (ExpirySweep.BodyDeleted
                 ("Deleted "
                  +:+ pretty (length (expired_at (ExpirySweep.select_now env2) b))
                  +:+ " expired files")
                 (length (expired_at (ExpirySweep.select_now env2) b)))
              200)
  /\ ui o2 = log
  /\ expired_at (ExpirySweep.select_now env1) (backend o2) = [].
Proof.
  intros Hs1 Hr1 Hd1 Hsome Hs2 Hr2 Hd2 Hsel Hclock. cbv zeta.
  destruct (sweep_cases env1 log b)
    as [(e' & He' & _) | [(_ & Hn & _) | (_ & _ & Hui & Hobj & [(Hd & _) | (e' & He' & Hf & Hres & _)])]];
    try congruence.
  rewrite Hd1 in He'. injection He' as <-. rewrite Hr1 in Hui, Hobj.
  split; [exact Hres|]. split; [exact Hf|]. split.
  { intros r Hr. rewrite Hobj. now apply lookup_removed, in_map. }
  set (b1 := backend (ExpirySweep.sweep env1 log b)) in *.
  assert (Hexp : forall t, expired_at t b1 = expired_at t b).
  { intros t. unfold expired_at. now rewrite Hf. }
  assert (Hsome2 : expired_at (ExpirySweep.select_now env2) b1 <> []).
  { rewrite Hexp. destruct (expired_at (ExpirySweep.select_now env1) b) as [|r rs] eqn:E;
      [congruence|].
    assert (Hr : In r (expired_at (ExpirySweep.select_now env1) b)) by (rewrite E; now left).
    apply expired_at_spec in Hr.
    assert (Hr2' : In r (expired_at (ExpirySweep.select_now env2) b)).
    { apply expired_at_spec. split; [easy | lia]. }
    intros N. rewrite N in Hr2'. destruct Hr2'. }
  rewrite (sweep_some_expired env2 _ b1 Hs2 Hd2 Hsome2). rewrite Hr2, Hui. cbn.
  rewrite Hexp. split; [reflexivity|]. split; [reflexivity|].
  apply filter_expired_deleted. lia.
Qed.

Lemma sweep_retry_after_delete_failure_witness :
  let env1 := ExpirySweep.mkEnv 150 150 None None (Some Examples.storage_down) in
  let env2 := ExpirySweep.mkEnv 160 160 None None None in
  let o1 := ExpirySweep.sweep env1 [] Examples.three_rows in
  let o2 := ExpirySweep.sweep env2 (ui o1) (backend o1) in
  files (backend o1) = files Examples.three_rows
  /\ result o2 = inr (ExpirySweep.deleted 1).
Proof.
  destruct (sweep_retry_after_delete_failure
              (ExpirySweep.mkEnv 150 150 None None (Some Examples.storage_down))
              (ExpirySweep.mkEnv 160 160 None None None)
              [] Examples.three_rows Examples.storage_down)
    as (_ & Hf & _ & Hres & _).
  - reflexivity.
  - reflexivity.
  - reflexivity.
  - discriminate.
  - reflexivity.
  - reflexivity.
  - reflexivity.
  - cbn. lia.
  - cbn. lia.
  - cbv zeta. split; [exact Hf | exact Hres].
Defined.

Lemma lookup_not_removed (paths : list string) (m : gmap string (list byte)) (k : string) :
  (forall p, In p paths -> p <> k) -> foldr delete m paths !! k = m !! k.
Proof.
  induction paths as [|q paths IH]; cbn; [reflexivity|].
  intros H. rewrite lookup_delete_ne by (apply H; now left).
  apply IH. intros p Hp. apply H. now right.
Qed.

Lemma filter_filter_swap {A} (p q : A -> bool) (l : list A) :
  List.filter p (List.filter q l) = List.filter q (List.filter p l).
Proof.
  induction l as [|x l IH]; cbn; [reflexivity|].
  destruct (p x) eqn:Hp, (q x) eqn:Hq; cbn; rewrite ?Hp, ?Hq, IH; reflexivity.
Qed.

(** A visit that finds a live record whose gate the typed password opens
    and whose object is in the bucket saves that object. *)
Lemma visit_live fileId lenv typed b row bytes :
  List.filter (id_is fileId) (files b) = [row] ->
  FileDownload.select_fault lenv = None ->
  FileDownload.now lenv <= expires_at row ->
  (truthy_opt (password_hash row) = false
   \/ (typed <> "" /\ password_hash row = Some (hashPassword typed))) ->
  objects b !! file_path row = Some bytes ->
  let d := visit fileId lenv typed None FileDownload.initial b in
  FileDownload.saved (ui d) = [(filename row, bytes)]
  /\ FileDownload.toasts (ui d) = [FileDownload.toast_success]
  /\ backend d = b.
Proof.
  intros Hrow Hsel Hlive Hgate Hobj. cbv zeta. unfold visit, bind.
  rewrite (loadFileData_live _ _ _ _ row Hrow Hsel) by exact Hlive.
  cbn [result ui backend calls FileDownload.setPassword modify FileDownload.initial
       FileDownload.fileData FileDownload.password FileDownload.loading
       FileDownload.downloading FileDownload.error FileDownload.toasts
       FileDownload.saved].
  match goal with
  | |- context [FileDownload.handleDownload None ?s b] =>
      assert (E : FileDownload.handleDownload None s b
                  = FileDownload.fetch_and_save None row s b)
  end.
  { destruct Hgate as [Hnull | [Hpw Hhash]].
    - now apply handleDownload_ungated.
    - apply handleDownload_match; cbn; [reflexivity | now apply truthy_true_iff | assumption]. }
  rewrite E, (fetch_and_save_ok _ _ _ _ Hobj). cbn. auto.
Qed.

(** X19. The sweep does not harm a file that is still live: if the row
    with the requested id does not expire before the sweep's delete
    timestamp and no expired row shares its storage path, then after the
    sweep, whatever failed in it, a visitor who arrives before the expiry
    with the right password (or none required) still gets exactly the
    stored bytes under the record's filename. *)
Theorem sweep_keeps_live_file_downloadable env log b lenv fileId row bytes typed :
  List.filter (id_is fileId) (files b) = [row] ->
  objects b !! file_path row = Some bytes ->
  ExpirySweep.delete_now env <= expires_at row ->
  (forall r, In r (expired_at (ExpirySweep.select_now env) b) ->
             file_path r <> file_path row) ->
  FileDownload.select_fault lenv = None ->
  FileDownload.now lenv <= expires_at row ->
  (truthy_opt (password_hash row) = false
   \/ (typed <> "" /\ password_hash row = Some (hashPassword typed))) ->
  let o := ExpirySweep.sweep env log b in
  let d := visit fileId lenv typed None FileDownload.initial (backend o) in
  List.filter (id_is fileId) (files (backend o)) = [row]
  /\ objects (backend o) !! file_path row = Some bytes
  /\ FileDownload.saved (ui d) = [(filename row, bytes)].
Proof.
  intros Hrow Hobj Hlive Hpaths Hsel Hnow Hgate. cbv zeta.
  assert (Hkept : List.filter (id_is fileId) (files (backend (ExpirySweep.sweep env log b)))
                  = [row]
                  /\ objects (backend (ExpirySweep.sweep env log b)) !! file_path row
                     = Some bytes).
  { destruct (sweep_cases env log b)
      as [(e & _ & ->) | [(_ & _ & ->) | (_ & _ & _ & Ho & Hf)]];
      [cbn; auto | cbn; auto |].
    split.
    - destruct Hf as [(_ & -> & _) | (e & _ & -> & _)]; [|assumption].
      rewrite filter_filter_swap, Hrow. cbn. unfold expires_before.
      destruct (Z.ltb_spec (expires_at row) (ExpirySweep.delete_now env)); [lia|].
      reflexivity.
    - rewrite Ho. destruct (ExpirySweep.remove_fault env); [assumption|].
      rewrite lookup_not_removed; [assumption|].
      intros p (r & <- & Hr)%in_map_iff. now apply Hpaths. }
  destruct Hkept as [Hrow' Hobj'].
  split; [exact Hrow'|]. split; [exact Hobj'|].
  now apply (visit_live fileId lenv typed _ row bytes Hrow' Hsel Hnow Hgate Hobj').
Qed.

Lemma sweep_keeps_live_file_downloadable_witness :
  let o := ExpirySweep.sweep (ExpirySweep.mkEnv 150 151 None None None)
                             [] Examples.three_rows in
  let d := visit "c" (Examples.load_env 200) "" None FileDownload.initial (backend o) in
  FileDownload.saved (ui d) = [("c.txt", [])].
Proof.
  destruct (sweep_keeps_live_file_downloadable
              (ExpirySweep.mkEnv 150 151 None None None) [] Examples.three_rows
              (Examples.load_env 200) "c" (Examples.row "c" 300) [] "")
    as (_ & _ & H).
  - reflexivity.
  - reflexivity.
  - cbn. lia.
  - intros r [<-|[]]. discriminate.
  - reflexivity.
  - cbn. lia.
  - left. reflexivity.
  - exact H.
Defined.

(** X20. A row that expires between the sweep's two timestamps is deleted
    by the second query without having been selected by the first: its
    object is not in the removed batch and stays in the bucket with no row
    left to point at it, and it is not counted in the answer. *)
Theorem sweep_orphans_rows_expiring_between env log b r bytes :
  ExpirySweep.select_fault env = None ->
  ExpirySweep.delete_fault env = None ->
  expired_at (ExpirySweep.select_now env) b <> [] ->
  In r (files b) ->
  ExpirySweep.select_now env <= expires_at r < ExpirySweep.delete_now env ->
  objects b !! file_path r = Some bytes ->
  (forall x, In x (expired_at (ExpirySweep.select_now env) b) ->
             file_path x <> file_path r) ->
  let o := ExpirySweep.sweep env log b in
  ~ In r (files (backend o))
  /\ objects (backend o) !! file_path r = Some bytes
  /\ ~ In r (expired_at (ExpirySweep.select_now env) b)
  /\ result o
     = inr (ExpirySweep.mkHttpResponse
              (ExpirySweep.BodyDeleted
                 ("Deleted "
                  +:+ pretty (length (expired_at (ExpirySweep.select_now env) b))
                  +:+ " expired files")
                 (length (expired_at (ExpirySweep.select_now env) b)))
              200).
Proof.
  intros Hsel Hdel Hsome Hin Hbetween Hobj Hpaths. cbv zeta.
  rewrite (sweep_some_expired _ _ _ Hsel Hdel Hsome). cbn.
  split; [|split; [|split]].
  - intros [_ H]%List.filter_In. unfold expires_before in H.
    apply negb_true_iff, Z.ltb_ge in H. lia.
  - destruct (ExpirySweep.remove_fault env); [assumption|].
    rewrite lookup_not_removed; [assumption|].
    intros p (x & <- & Hx)%in_map_iff. now apply Hpaths.
  - intros H%expired_at_spec. lia.
  - reflexivity.
Qed.

Lemma sweep_orphans_rows_expiring_between_witness :
  let o := ExpirySweep.sweep (ExpirySweep.mkEnv 150 250 None None None)
                             [] Examples.three_rows in
  ~ In (Examples.row "b" 200) (files (backend o))
  /\ objects (backend o) !! "uploads/b/b.txt" = Some [].
Proof.
  destruct (sweep_orphans_rows_expiring_between
              (ExpirySweep.mkEnv 150 250 None None None) [] Examples.three_rows
              (Examples.row "b" 200) [])
    as (Hgone & Hobj & _).
  - reflexivity.
  - reflexivity.
  - discriminate.
  - right. left. reflexivity.
  - cbn. lia.
  - reflexivity.
  - intros x [<-|[]]. discriminate.
  - cbv zeta. split; [exact Hgone | exact Hobj].
Defined.

(** X21. The handler always answers and never lets an exception escape:
    the status is 200 with a body that is not an error, or 400 with the
    message of the table call that failed; a CORS preflight is answered
    'ok' without any call to the backend. *)
Theorem handler_answers req env log b :
  let o := ExpirySweep.handler req env log b in
  exists resp, result o = inr resp
    /\ ((ExpirySweep.status resp = 200
         /\ forall m, ExpirySweep.body resp <> ExpirySweep.BodyError m)
        \/ (ExpirySweep.status resp = 400
            /\ exists e, ExpirySweep.body resp = ExpirySweep.BodyError (message e)
                         /\ (ExpirySweep.select_fault env = Some e
                             \/ ExpirySweep.delete_fault env = Some e)))
    /\ (ExpirySweep.method req = "OPTIONS" ->
        resp = ExpirySweep.mkHttpResponse ExpirySweep.BodyOk 200
        /\ calls o = [] /\ backend o = b /\ ui o = log).
Proof.
  cbv zeta.
  destruct (String.eqb_spec (ExpirySweep.method req) "OPTIONS") as [Hm|Hm].
  { unfold ExpirySweep.handler. rewrite Hm. cbn.
    eexists. split; [reflexivity|]. split; [left; split; [reflexivity | discriminate]|].
    auto. }
  rewrite (handler_sweeps req env Hm).
  destruct (sweep_cases env log b)
    as [(e & He & ->) | [(_ & _ & ->) | (_ & _ & _ & _ & [(_ & _ & -> & _) | (e & He & _ & -> & _)])]];
    eexists; (split; [reflexivity|]); (split; [|intros; contradiction]); cbn.
  - right. split; [reflexivity|]. exists e. auto.
  - left. split; [reflexivity | discriminate].
  - left. split; [reflexivity | discriminate].
  - right. split; [reflexivity|]. exists e. auto.
Qed.

(** X22. Lazy and eager expiry use the same test: with no record loaded
    yet, [loadFileData] at time [t] puts the row on the page exactly when a
    sweep whose first query runs at [t] would not select it. *)
Theorem lazy_and_eager_expiry_agree fileId env st b row :
  List.filter (id_is fileId) (files b) = [row] ->
  FileDownload.select_fault env = None ->
  FileDownload.fileData st = None ->
  FileDownload.fileData (ui (FileDownload.loadFileData fileId env st b)) = Some row
  <-> ~ In row (expired_at (FileDownload.now env) b).
Proof.
  intros Hrow Hsel Hnone.
  assert (Hin : In row (files b)).
  { assert (H : In row (List.filter (id_is fileId) (files b))) by (rewrite Hrow; now left).
    now apply List.filter_In in H. }
  rewrite expired_at_spec.
  destruct (Z.le_gt_cases (FileDownload.now env) (expires_at row)) as [Hle|Hgt].
  - rewrite (loadFileData_live _ _ _ _ row Hrow Hsel Hle). cbn. split; [lia | reflexivity].
  - destruct (loadFileData_cases fileId env st b)
      as [(e & He & _) | (r & Hr & _ & [(Hle & _) | (_ & E)])].
    + unfold files_select_single in He. rewrite Hsel, Hrow in He. discriminate He.
    + rewrite Hrow in Hr. injection Hr as <-. lia.
    + rewrite E. cbn. rewrite Hnone. split; [discriminate|]. intros H. exfalso. apply H.
      split; [assumption | lia].
Qed.

Lemma lazy_and_eager_expiry_agree_witness :
  ~ In (row_for Examples.up_env (Examples.up_state "") Examples.report)
       (expired_at 1060000 (Examples.after_upload "")).
Proof.
  apply (lazy_and_eager_expiry_agree "7f3c" (Examples.load_env 1060000)
           FileDownload.initial (Examples.after_upload "")
           (row_for Examples.up_env (Examples.up_state "") Examples.report)).
  - reflexivity.
  - reflexivity.
  - reflexivity.
  - reflexivity.
Defined.

(* ===================================================================== *)
(** ** Further properties: invariants across the flows                   *)
(* ===================================================================== *)

Lemma primary_key_filter (p : FileData -> bool) (tbl : list FileData) :
  NoDup (map id tbl) -> NoDup (map id (List.filter p tbl)).
Proof.
  induction tbl as [|r tbl IH]; cbn; [easy|].
  intros H. apply NoDup_cons in H as [Hnotin Hnd].
  destruct (p r); cbn; [|auto].
  apply NoDup_cons. split; [|auto].
  rewrite list_elem_of_In in *. intros (x & Hx & Hin)%in_map_iff. apply Hnotin.
  apply in_map_iff. exists x. split; [easy|]. now apply List.filter_In in Hin.
Qed.

Lemma primary_key_insert (row : FileData) (tbl : list FileData) :
  NoDup (map id tbl) -> existsb (id_is (id row)) tbl = false ->
  NoDup (map id (tbl ++ [row])).
Proof.
  intros Hnd Hfresh. rewrite map_app. apply NoDup_app. split; [exact Hnd|]. split.
  - intros x Hx [->|[]%elem_of_nil]%elem_of_cons.
    apply list_elem_of_In, in_map_iff in Hx as (r & Hr & Hin).
    assert (Hex : existsb (id_is (id row)) tbl = true).
    { apply existsb_exists. exists r. split; [easy|]. now apply String.eqb_eq. }
    congruence.
  - cbn. apply NoDup_singleton.
Qed.

(** The table after [handleUpload]: as before, or with one row whose id was
    not in use. *)
Lemma handleUpload_files env st b :
  let o := FileUpload.handleUpload env st b in
  files (backend o) = files b
  \/ exists f, files (backend o) = files b ++ [row_for env st f]
               /\ existsb (id_is (FileUpload.randomUUID env)) (files b) = false.
Proof.
  destruct env as [uuid now origin uf inf tz], st as [fl pw ex upl prog link ts].
  cbv zeta. destruct fl as [f|]; [|left; reflexivity].
  unfold FileUpload.handleUpload. run_flow.
  unfold storage_upload; cbn.
  destruct uf as [e|]; cbn; [left; reflexivity|].
  destruct (objects b !! _); cbn; [left; reflexivity|].
  unfold files_insert; cbn.
  destruct inf as [e|]; cbn; [left; reflexivity|].
  destruct (existsb _ _) eqn:E; cbn; [left; reflexivity|].
  right. exists f. auto.
Qed.

(** X23. The primary key of the table is an invariant of the application:
    if no two rows share an id, this is still so after any run of
    [handleUpload] (whatever identifier is drawn), of [loadFileData], of
    [handleDownload] and of the sweep handler. *)
Theorem primary_key_preserved b :
  primary_key_ok b ->
  (forall env st, primary_key_ok (backend (FileUpload.handleUpload env st b)))
  /\ (forall fileId env st,
        primary_key_ok (backend (FileDownload.loadFileData fileId env st b)))
  /\ (forall fault st, primary_key_ok (backend (FileDownload.handleDownload fault st b)))
  /\ (forall req env log, primary_key_ok (backend (ExpirySweep.handler req env log b))).
Proof.
  unfold primary_key_ok. intros Hpk. split; [|split; [|split]].
  - intros env st. destruct (handleUpload_files env st b) as [-> | (f & -> & Hfresh)];
      [assumption|].
    now apply primary_key_insert.
  - intros fileId env st.
    destruct (loadFileData_cases fileId env st b)
      as [(e & _ & ->) | (row & _ & _ & [(_ & ->) | (_ & ->)])]; cbn; try assumption.
    destruct (is_none _); [now apply primary_key_filter | assumption].
  - intros fault st. now rewrite handleDownload_backend.
  - intros req env log.
    destruct (String.eqb_spec (ExpirySweep.method req) "OPTIONS") as [Hm|Hm].
    { unfold ExpirySweep.handler. rewrite Hm. cbn. assumption. }
    rewrite (handler_sweeps req env Hm).
    destruct (sweep_cases env log b)
      as [(e & _ & ->) | [(_ & _ & ->) | (_ & _ & _ & _ & [(_ & -> & _) | (e & _ & -> & _)])]];
      cbn; try assumption.
    now apply primary_key_filter.
Qed.

Lemma primary_key_preserved_witness :
  primary_key_ok (backend (FileUpload.handleUpload Examples.up_env (Examples.up_state "abc")
                                                   Examples.three_rows)).
Proof.
  destruct (primary_key_preserved Examples.three_rows) as (H & _).
  - unfold primary_key_ok. cbn.
    repeat (apply NoDup_cons; split; [rewrite list_elem_of_In; cbn; intuition discriminate|]).
    apply NoDup_nil. constructor.
  - apply H.
Defined.

(** X24. A record the sweep has purged is no longer served: once a sweep
    whose table calls are answered has run after the row's expiry, opening
    the link loads no record, attempts no deletion and ends on the error
    card, with the message of the failed single-row lookup. *)
Theorem swept_record_is_not_served env log b fileId row lenv st :
  List.filter (id_is fileId) (files b) = [row] ->
  expires_at row < ExpirySweep.select_now env ->
  ExpirySweep.select_now env <= ExpirySweep.delete_now env ->
  ExpirySweep.select_fault env = None ->
  ExpirySweep.delete_fault env = None ->
  FileDownload.select_fault lenv = None ->
  let o := ExpirySweep.sweep env log b in
  let d := FileDownload.loadFileData fileId lenv st (backend o) in
  List.filter (id_is fileId) (files (backend o)) = []
  /\ FileDownload.fileData (ui d) = FileDownload.fileData st
  /\ calls d = [FilesSelectSingle fileId false]
  /\ backend d = backend o
  /\ FileDownload.render (ui d) = FileDownload.ErrorCard (message no_single_row).
Proof.
  intros Hrow Hexp Hclock Hsel Hdel Hlsel. cbv zeta.
  assert (Hsome : expired_at (ExpirySweep.select_now env) b <> []).
  { intros N.
    assert (Hin : In row (expired_at (ExpirySweep.select_now env) b)).
    { apply expired_at_spec. split; [|assumption].
      assert (H : In row (List.filter (id_is fileId) (files b))) by (rewrite Hrow; now left).
      now apply List.filter_In in H. }
    rewrite N in Hin. destruct Hin. }
  assert (Hgone : List.filter (id_is fileId)
                    (files (backend (ExpirySweep.sweep env log b))) = []).
  { rewrite (sweep_some_expired _ _ _ Hsel Hdel Hsome). cbn.
    rewrite filter_filter_swap, Hrow. cbn. unfold expires_before.
    destruct (Z.ltb_spec (expires_at row) (ExpirySweep.delete_now env)); [reflexivity | lia]. }
  split; [exact Hgone|].
  destruct (loadFileData_miss fileId lenv st _ Hgone Hlsel) as (He & Hfd & Hl & Hb & Hc).
  repeat split; try assumption.
  unfold FileDownload.render. rewrite Hl, He. reflexivity.
Qed.

Lemma swept_record_is_not_served_witness :
  let o := ExpirySweep.sweep (ExpirySweep.mkEnv 150 150 None None None)
                             [] Examples.three_rows in
  let d := FileDownload.loadFileData "a" (Examples.load_env 160) FileDownload.initial
                                     (backend o) in
  FileDownload.fileData (ui d) = None /\ calls d = [FilesSelectSingle "a" false].
Proof.
  destruct (swept_record_is_not_served
              (ExpirySweep.mkEnv 150 150 None None None) [] Examples.three_rows
              "a" (Examples.row "a" 100) (Examples.load_env 160) FileDownload.initial)
    as (_ & Hfd & Hc & _).
  - reflexivity.
  - cbn. lia.
  - cbn. lia.
  - reflexivity.
  - reflexivity.
  - reflexivity.
  - cbv zeta. split; [exact Hfd | exact Hc].
Defined.

(** X25. None of the three handlers of the pages lets an exception escape,
    and each one that raised its busy flag lowers it again, whatever the
    backend answers: after [handleUpload] with a file selected [uploading]
    is false, after [loadFileData] [loading] is false, and after a
    [handleDownload] that reached the storage [downloading] is false. *)
Theorem handlers_reset_busy_flags b :
  (forall env st, let o := FileUpload.handleUpload env st b in
     result o = inr tt
     /\ (FileUpload.file st <> None -> FileUpload.uploading (ui o) = false))
  /\ (forall fileId env st, let o := FileDownload.loadFileData fileId env st b in
        result o = inr tt /\ FileDownload.loading (ui o) = false)
  /\ (forall fault st, let o := FileDownload.handleDownload fault st b in
        result o = inr tt
        /\ (calls o <> [] -> FileDownload.downloading (ui o) = false)).
Proof.
  split; [|split].
  - intros env st. cbv zeta.
    destruct env as [uuid now origin uf inf tz], st as [fl pw ex upl prog link ts].
    destruct fl as [f|]; [|split; [reflexivity | cbn; congruence]].
    unfold FileUpload.handleUpload. run_flow. unfold storage_upload; cbn.
    destruct uf as [e|]; cbn; [auto|].
    destruct (objects b !! _); cbn; [auto|].
    unfold files_insert; cbn.
    destruct inf as [e|]; cbn; [auto|].
    destruct (existsb _ _); cbn; auto.
  - intros fileId env st. cbv zeta.
    destruct (loadFileData_cases fileId env st b)
      as [(e & _ & ->) | (row & _ & _ & [(_ & ->) | (_ & ->)])]; cbn; auto.
  - intros fault st. cbv zeta.
    destruct (handleDownload_cases fault st b)
      as [(_ & ->) | (fd & Hfd & [(_ & _ & ->) | [(_ & _ & _ & ->) | (_ & ->)]])];
      [cbn; split; [reflexivity | congruence] | cbn; split; [reflexivity | congruence]
       | cbn; split; [reflexivity | congruence] |].
    destruct (fetch_and_save_cases fault fd st b) as [(bytes & _ & _ & ->) | (e & _ & ->)];
      cbn; auto.
Qed.

Lemma truthy_append_cons (a s : string) (c : ascii) : truthy (a +:+ String c s) = true.
Proof. destruct a; reflexivity. Qed.

(** X26. Upload Another File really starts over. After any upload,
    [resetForm] brings back the form with its button disabled, and pressing
    Upload then makes no call. Once a file is chosen again
    ([handleFileChange] takes the first file of the selection) the button is
    enabled, and an upload that goes through stores that file with no
    password hash and the expiry computed for the default of 5 minutes
    ([setMinutes(getMinutes() + 5)]), whatever the password and the
    expiration of the previous upload were, and shows the new link. *)
Theorem upload_another_file env1 st b1 f rest env2 b2 :
  FileUpload.uploading st = false ->
  FileUpload.upload_fault env2 = None ->
  FileUpload.insert_fault env2 = None ->
  objects b2 !! storage_key env2 f = None ->
  existsb (id_is (FileUpload.randomUUID env2)) (files b2) = false ->
  let s1 := ui (FileUpload.resetForm (ui (FileUpload.handleUpload env1 st b1)) b1) in
  let s2 := ui (FileUpload.handleFileChange (Some (f :: rest)) s1 b1) in
  let o := FileUpload.handleUpload env2 s2 b2 in
  FileUpload.render s1 = FileUpload.Form true
  /\ calls (FileUpload.handleUpload env2 s1 b2) = []
  /\ FileUpload.render s2 = FileUpload.Form false
  /\ files (backend o)
     = files b2 ++ [ mkFileData (FileUpload.randomUUID env2) (name f) (storage_key env2 f)
                                (file_byte_size f) None
                                (JSDate.setMinutes (FileUpload.timezone env2)
                                   (FileUpload.now env2)
                                   (JSDate.getMinutes (FileUpload.timezone env2)
                                      (FileUpload.now env2) + 5)) ]
  /\ objects (backend o) !! storage_key env2 f = Some (content f)
  /\ FileUpload.render (ui o)
     = FileUpload.LinkCard
         (FileUpload.origin env2 +:+ "/download/" +:+ FileUpload.randomUUID env2) 5.
Proof.
  intros Hidle Hup Hins Hobj Hid. cbv zeta.
  assert (Hflag : FileUpload.uploading (ui (FileUpload.handleUpload env1 st b1)) = false).
  { destruct (handleUpload_cases env1 st b1)
      as [(_ & ->) | (f0 & _ & [(e & ->) | [(e & ->) | (_ & ->)]])]; cbn;
      [exact Hidle | reflexivity | reflexivity | reflexivity]. }
  set (s0 := ui (FileUpload.handleUpload env1 st b1)) in *.
  unfold FileUpload.resetForm, FileUpload.handleFileChange, modify.
  cbn [ui]. rewrite Hflag.
  split; [reflexivity|]. split.
  { unfold FileUpload.handleUpload. run_flow. reflexivity. }
  split; [reflexivity|].
  match goal with
  | |- context [FileUpload.handleUpload env2 ?s b2] =>
      rewrite (handleUpload_success env2 s b2 f eq_refl Hup Hins Hobj Hid)
  end.
  cbn [backend ui files objects]. split; [reflexivity|].
  split; [apply lookup_insert_eq|].
  unfold FileUpload.render. cbn [FileUpload.shareLink FileUpload.expirationMinutes].
  change ("/download/" +:+ FileUpload.randomUUID env2)
    with (String "/" ("download/" +:+ FileUpload.randomUUID env2)).
  rewrite truthy_append_cons. reflexivity.
Qed.

Lemma upload_another_file_witness :
  let s1 := ui (FileUpload.resetForm
                  (ui (FileUpload.handleUpload Examples.up_env (Examples.up_state "abc")
                                               Examples.empty_backend))
                  Examples.empty_backend) in
  let s2 := ui (FileUpload.handleFileChange (Some [Examples.report]) s1
                                            Examples.empty_backend) in
  let env2 := FileUpload.mkEnv "9a1e" 2000000 "https://share.example" None None JSDate.utc in
  map password_hash
      (files (backend (FileUpload.handleUpload env2 s2 (Examples.after_upload "abc"))))
  = [Some (hashPassword "abc"); None].
Proof.
  destruct (upload_another_file Examples.up_env (Examples.up_state "abc")
              Examples.empty_backend Examples.report []
              (FileUpload.mkEnv "9a1e" 2000000 "https://share.example" None None JSDate.utc)
              (Examples.after_upload "abc"))
    as (_ & _ & _ & Hfiles & _).
  - reflexivity.
  - reflexivity.
  - reflexivity.
  - vm_compute. reflexivity.
  - vm_compute. reflexivity.
  - cbv zeta. rewrite Hfiles. reflexivity.
Defined.
